(** * SimpleSantaBot (bot.py): a shallow embedding and its properties

    The bot is a single-threaded loop: it polls the transport for updates,
    routes every message to a handler, and the handlers read and write the
    SQLite file santa.db, the in-memory session dict [user_data] and the
    cursor [last_update_id], and answer through [send_message].

    The embedding keeps that shape.  The two tables are lists of rows, the
    session dict is a [gmap], and every method of the class is a computation
    in a small state-and-exception monad over the whole world the bot can
    touch. *)

From Stdlib Require Import ZArith NArith Lia.
From stdpp Require Import gmap list strings.

Local Open Scope Z_scope.

(** ** Python strings *)

(** A [str] is a sequence of Unicode code points. *)
Module PyStr.

Definition str := list N.

(** An ASCII literal of the source as a [str]. *)
Definition lit (s : string) : str :=
  Ascii.N_of_ascii <$> String.list_ascii_of_string s.

(** [str.isspace] on one character: the code points CPython classifies
    as whitespace. *)
Definition isspace (c : N) : bool :=
  ((9 <=? c) && (c <=? 13) || (28 <=? c) && (c <=? 32)
   || (c =? 133) || (c =? 160) || (c =? 5760)
   || (8192 <=? c) && (c <=? 8202)
   || (c =? 8232) || (c =? 8233) || (c =? 8239) || (c =? 8287)
   || (c =? 12288))%N.

Fixpoint lstrip (s : str) : str :=
  match s with
  | c :: s' => if isspace c then lstrip s' else s
  | [] => []
  end.

Definition rstrip (s : str) : str := reverse (lstrip (reverse s)).

(** [s.strip()] *)
Definition strip (s : str) : str := rstrip (lstrip s).

(** [s.split()]: the maximal runs of characters that are not whitespace.
    [cur] holds the characters of the current run, last one first. *)
Fixpoint split_go (cur : str) (s : str) : list str :=
  match s with
  | [] => match cur with [] => [] | _ => [reverse cur] end
  | c :: s' =>
      if isspace c
      then match cur with
           | [] => split_go [] s'
           | _ => reverse cur :: split_go [] s'
           end
      else split_go (c :: cur) s'
  end.

Definition split (s : str) : list str := split_go [] s.

(** [s.startswith(p)] *)
Definition startswith (s p : str) : bool := bool_decide (p `prefix_of` s).

(** [int] restricted to plain ASCII numerals: an optional sign, then
    digits that may be separated by single underscores.  It serves as a
    concrete instance of the builtin, which the bot takes as a parameter
    (the builtin also reads the decimal digits of other scripts). *)
Definition digit (c : N) : option Z :=
  if ((48 <=? c) && (c <=? 57))%N then Some (Z.of_N c - 48) else None.

Fixpoint digits (acc : Z) (after_digit : bool) (s : str) : option Z :=
  match s with
  | [] => if after_digit then Some acc else None
  | c :: s' =>
      if (c =? 95)%N
      then if after_digit then digits acc false s' else None
      else match digit c with
           | Some d => digits (10 * acc + d) true s'
           | None => None
           end
  end.

Definition ascii_int (s : str) : option Z :=
  match strip s with
  | c :: s' =>
      if (c =? 45)%N then Z.opp <$> digits 0 false s'
      else if (c =? 43)%N then digits 0 false s'
      else digits 0 false (c :: s')
  | [] => None
  end.

End PyStr.
Import PyStr.

(** ** The record store: santa.db *)

(** A row of the table [users]. *)
Record User := mkUser {
  db_id : Z;                 (* id INTEGER PRIMARY KEY AUTOINCREMENT *)
  telegram_id : Z;           (* telegram_id INTEGER UNIQUE *)
  fio : str;
  group_name : str;
  preferences : str;
  santa_id : option Z;       (* NULL until a draw has run *)
  gift_delivered : bool;
  gift_received : bool
}.

(** The single row of the table [event_settings]. *)
Record Settings := mkSettings {
  registration_open : bool;
  event_started : bool
}.

(** The statements that change the file, as the journal records them. *)
Inductive Stmt :=
| UpdateRegistrationOpen (value : bool)
| UpdateEventStarted
| UpdateSantaId (receiver giver : Z)
| UpdateGiftDelivered (user_db_id : Z)
| UpdateGiftReceived (user_db_id : Z)
| DeleteUser (user_db_id : Z)
| InsertUser (telegram : Z) (name group prefs : str).

(** The file: both tables, the AUTOINCREMENT counter of [users], and the
    journal of the writing statements executed so far, oldest first.  The
    journal is ghost state: nothing reads it, it only lets a theorem say
    that a run wrote nothing. *)
Record Database := mkDatabase {
  users : list User;
  event_settings : option Settings;
  sequence : Z;
  journal : list Stmt
}.

Module Sql.

Definition logged (st : Stmt) (rows : list User) (es : option Settings)
    (d : Database) : Database :=
  mkDatabase rows es (sequence d) (journal d ++ [st]).

(** SELECT ... FROM users WHERE id = ?, first row *)
Definition user_by_id (i : Z) (d : Database) : option User :=
  snd <$> list_find (λ u, db_id u = i) (users d).

(** SELECT * FROM users WHERE telegram_id = ?, first row *)
Definition user_by_telegram_id (t : Z) (d : Database) : option User :=
  snd <$> list_find (λ u, telegram_id u = t) (users d).

(** SELECT id FROM users WHERE santa_id = ?, first row *)
Definition giver_of (i : Z) (d : Database) : option Z :=
  db_id ∘ snd <$> list_find (λ u, santa_id u = Some i) (users d).

(** SELECT id FROM users *)
Definition ids (d : Database) : list Z := db_id <$> users d.

Definition set_santa_id (r : option Z) (u : User) : User :=
  mkUser (db_id u) (telegram_id u) (fio u) (group_name u) (preferences u)
         r (gift_delivered u) (gift_received u).

Definition set_gift_delivered (u : User) : User :=
  mkUser (db_id u) (telegram_id u) (fio u) (group_name u) (preferences u)
         (santa_id u) true (gift_received u).

Definition set_gift_received (u : User) : User :=
  mkUser (db_id u) (telegram_id u) (fio u) (group_name u) (preferences u)
         (santa_id u) (gift_delivered u) true.

(** UPDATE users SET ... WHERE id = ? on the rows. *)
Definition update_where_id (f : User → User) (i : Z) (rows : list User)
    : list User :=
  (λ u, if decide (db_id u = i) then f u else u) <$> rows.

(** The rowcount of such an UPDATE. *)
Definition rowcount (i : Z) (rows : list User) : nat :=
  length (filter (λ u, db_id u = i) rows).

(** The writing statements: the rowcount and the file afterwards. *)

(** UPDATE users SET santa_id = ? WHERE id = ? *)
Definition update_santa_id (receiver giver : Z) (d : Database)
    : nat * Database :=
  (rowcount giver (users d),
   logged (UpdateSantaId receiver giver)
     (update_where_id (set_santa_id (Some receiver)) giver (users d))
     (event_settings d) d).

(** UPDATE users SET gift_delivered = 1 WHERE id = ? *)
Definition update_gift_delivered (i : Z) (d : Database) : nat * Database :=
  (rowcount i (users d),
   logged (UpdateGiftDelivered i)
     (update_where_id set_gift_delivered i (users d)) (event_settings d) d).

(** UPDATE users SET gift_received = 1 WHERE id = ? *)
Definition update_gift_received (i : Z) (d : Database) : nat * Database :=
  (rowcount i (users d),
   logged (UpdateGiftReceived i)
     (update_where_id set_gift_received i (users d)) (event_settings d) d).

(** DELETE FROM users WHERE id = ? *)
Definition delete_where_id (i : Z) (d : Database) : nat * Database :=
  (rowcount i (users d),
   logged (DeleteUser i) (filter (λ u, db_id u ≠ i) (users d))
     (event_settings d) d).

Definition settings_rows (d : Database) : nat :=
  match event_settings d with Some _ => 1 | None => 0 end.

(** UPDATE event_settings SET registration_open = ? WHERE id = 1 *)
Definition update_registration_open (b : bool) (d : Database)
    : nat * Database :=
  (settings_rows d,
   logged (UpdateRegistrationOpen b) (users d)
     ((λ es, mkSettings b (event_started es)) <$> event_settings d) d).

(** UPDATE event_settings SET event_started = 1 WHERE id = 1 *)
Definition update_event_started (d : Database) : nat * Database :=
  (settings_rows d,
   logged UpdateEventStarted (users d)
     ((λ es, mkSettings (registration_open es) true) <$> event_settings d) d).

(** The rowid AUTOINCREMENT gives the next row: one more than the largest
    rowid the table has ever held. *)
Definition next_rowid (d : Database) : Z :=
  1 + foldr Z.max (sequence d) (ids d).

(** INSERT INTO users (telegram_id, fio, group_name, preferences); [None]
    is the IntegrityError of the UNIQUE column, which changes nothing. *)
Definition insert_user (t : Z) (name group prefs : str) (d : Database)
    : option (Z * Database) :=
  match user_by_telegram_id t d with
  | Some _ => None
  | None =>
      let i := next_rowid d in
      Some (i, mkDatabase
                 (users d ++ [mkUser i t name group prefs None false false])
                 (event_settings d) i
                 (journal d ++ [InsertUser t name group prefs]))
  end.

End Sql.

(** What sqlite3 can bind to a parameter: a Python int of 64 bits. *)
Definition sqlite_int (z : Z) : Prop := -2^63 ≤ z < 2^63.

#[global] Instance sqlite_int_dec z : Decision (sqlite_int z).
Proof. unfold sqlite_int. apply _. Defined.

(** ** Messages, sessions and updates *)

(** The texts the bot sends.  Their wording is left out; a constructor
    stands for one format string of the source and carries the values the
    source interpolates into it. *)
Inductive Msg :=
| AlreadyRegisteredText (name : str) (i : Z)
| RegistrationClosedText
| WelcomeText (user_name : str)
| AssignmentText (receiver_id : Z) (prefs : str)
| NoAssignmentText
| NoAdminRightsText
| StatsText (total delivered received : nat) (reg_open started : bool)
| NoUsersText
| UsersListText (rows : list (str * Z * str * bool * bool))
| CloseDoneText
| OpenDoneText
| DrawDoneText (count : nat)
| NeedTwoText
| UserDeletedText (i : Z) (name group : str)
| RerunAdviceText
| DeleteNotFoundText
| DelUsageText
| GiftMarkedText (i : Z)
| UserNotFoundText
| GiftUsageText
| ReceivedMarkedText (i : Z)
| ReceivedUsageText
| HelpAdminText
| GiftDeliveredNotice
| GiftReceivedNotice
| AskGroupText
| AskPreferencesText
| RegisteredText (i : Z) (name group : str)
| AlreadyRegisteredShortText
| UseStartText
| HelpText.

(** The two defaults written in Cyrillic in the source: the preferences
    shown when the receiver's row is gone, and the name of a sender whose
    update carries no first name. *)
Definition not_specified : str :=
  [1053; 1077; 32; 1091; 1082; 1072; 1079; 1072; 1085; 1086]%N.

Definition friend : str := [1044; 1088; 1091; 1075]%N.

(** The value of the key "step" of a session. *)
Inductive Step := StepFio | StepGroup | StepPreferences.

(** An entry of [user_data]: the dict with the keys "step", "fio" and
    "group", the last two present once they have been collected. *)
Record Session := mkSession {
  step : Step;
  session_fio : option str;
  session_group : option str
}.

(** An update of the transport, as far as [process_updates] reads it, once
    the keys "chat" and "from" of its message have been read; [Incoming]
    below is the message before that. *)
Record Message := mkMessage {
  chat_id_of : Z;
  from_id : Z;
  first_name : option str;
  text_of : option str
}.

Record Update := mkUpdate {
  update_id : Z;
  message : option Message
}.

(** The parameters of a getUpdates request. *)
Record PollParams := mkPollParams {
  offset : Z;
  timeout : Z;
  limit : Z
}.

(** The exceptions no handler of the source catches. *)
Inductive Exc := OverflowError | KeyError.

Inductive Res (A : Type) :=
| Ok (a : A)
| Raise (e : Exc).
Arguments Ok {A} a.
Arguments Raise {A} e.

(** ** The bot *)

Section Bot.

(** From config.py. *)
Variable ORGANIZER_IDS : list Z.

(** The generator behind [random], and [random.shuffle] as a function of
    its state. *)
Variable Rng : Type.
Variable shuffle : Rng → list Z → list Z * Rng.

(** The builtin [int] on a string; [None] is its ValueError. *)
Variable py_int : str → option Z.

(** Everything a method can read or change: the two attributes of the bot
    object, the file santa.db, the calls of [send_message] made so far
    (oldest first), and the generator. *)
Record State := mkState {
  last_update_id : Z;
  user_data : gmap Z Session;
  santa_db : Database;
  outbox : list (Z * Msg);
  rng : Rng
}.

Definition M (A : Type) : Type := State → Res A * State.

Definition ret {A} (a : A) : M A := λ s, (Ok a, s).

Definition bind {A B} (m : M A) (k : A → M B) : M B :=
  λ s, match m s with
       | (Ok a, s') => k a s'
       | (Raise e, s') => (Raise e, s')
       end.

Definition raise {A} (e : Exc) : M A := λ s, (Raise e, s).

Notation "x <- m ;; k" := (bind m (λ x, k))
  (at level 100, m at next level, right associativity).
Notation "m ;; k" := (bind m (λ _, k))
  (at level 100, right associativity).

(** A SELECT, and a writing statement, which answers with its rowcount. *)
Definition query {A} (q : Database → A) : M A :=
  λ s, (Ok (q (santa_db s)), s).

Definition execute (w : Database → nat * Database) : M nat :=
  λ s, (Ok (w (santa_db s)).1,
        mkState (last_update_id s) (user_data s) (w (santa_db s)).2
                (outbox s) (rng s)).

(** sqlite3 refuses a parameter that does not fit 64 bits.  Only the number
    an organizer types can be that large: the identifiers of the transport
    and the values read back from the file are 64-bit. *)
Definition bind_param (z : Z) : M unit :=
  if decide (sqlite_int z) then ret tt else raise OverflowError.

Fixpoint for_each {A} (l : list A) (body : A → M unit) : M unit :=
  match l with
  | [] => ret tt
  | x :: l' => body x ;; for_each l' body
  end.

Definition is_registration_open : M bool :=
  query (λ d, from_option registration_open false (event_settings d)).

Definition is_event_started : M bool :=
  query (λ d, from_option event_started false (event_settings d)).

(** The offset, timeout and limit [get_updates] asks for. *)
Definition get_updates_params (s : State) : PollParams :=
  mkPollParams (last_update_id s + 1) 10 100.

(** [send_message]: the request goes out; whether it arrives is the
    network's business, and no caller looks at the result. *)
Definition send_message (chat_id : Z) (text : Msg) : M unit :=
  λ s, (Ok tt, mkState (last_update_id s) (user_data s) (santa_db s)
                       (outbox s ++ [(chat_id, text)]) (rng s)).

Definition show_assignment (chat_id user_db_id : Z) : M unit :=
  result <- query (Sql.user_by_id user_db_id) ;;
  match result ≫= santa_id with
  | Some receiver_id =>
      if receiver_id =? 0 then send_message chat_id NoAssignmentText
      else
        preferences_result <- query (Sql.user_by_id receiver_id) ;;
        send_message chat_id
          (AssignmentText receiver_id
             (from_option preferences not_specified preferences_result))
  | None => send_message chat_id NoAssignmentText
  end.

Definition set_session (user_id : Z) (v : Session) : M unit :=
  λ s, (Ok tt, mkState (last_update_id s) (<[user_id := v]> (user_data s))
                       (santa_db s) (outbox s) (rng s)).

Definition del_session (user_id : Z) : M unit :=
  λ s, (Ok tt, mkState (last_update_id s) (delete user_id (user_data s))
                       (santa_db s) (outbox s) (rng s)).

Definition handle_start (chat_id user_id : Z) (user_name : str) : M unit :=
  existing_user <- query (Sql.user_by_telegram_id user_id) ;;
  match existing_user with
  | Some row =>
      started <- is_event_started ;;
      if started then show_assignment chat_id (db_id row)
      else send_message chat_id (AlreadyRegisteredText (fio row) (db_id row))
  | None =>
      opened <- is_registration_open ;;
      if negb opened then send_message chat_id RegistrationClosedText
      else
        send_message chat_id (WelcomeText user_name) ;;
        set_session user_id (mkSession StepFio None None)
  end.

Definition get_all_users : M (list User) := query users.

Definition close_registration : M unit :=
  execute (Sql.update_registration_open false) ;; ret tt.

Definition open_registration : M unit :=
  execute (Sql.update_registration_open true) ;; ret tt.

Definition random_shuffle (l : list Z) : M (list Z) :=
  λ s, let (l', g) := shuffle (rng s) l in
       (Ok l', mkState (last_update_id s) (user_data s) (santa_db s)
                       (outbox s) g).

Definition start_santa : M nat :=
  users <- query Sql.ids ;;
  if (length users <? 2)%nat then ret (length users)
  else
    users <- random_shuffle users ;;
    for_each (seq 0 (length users)) (λ i,
      let giver := users !!! i in
      let receiver := users !!! ((i + 1) `mod` length users)%nat in
      execute (Sql.update_santa_id receiver giver) ;; ret tt) ;;
    execute Sql.update_event_started ;;
    ret (length users).

Definition delete_user (user_db_id : Z) : M (option User) :=
  bind_param user_db_id ;;
  user_info <- query (Sql.user_by_id user_db_id) ;;
  match user_info with
  | Some _ => execute (Sql.delete_where_id user_db_id) ;; ret user_info
  | None => ret user_info
  end.

Definition notify_all_users : M unit :=
  users <- get_all_users ;;
  for_each users (λ user, show_assignment (telegram_id user) (db_id user)).

Definition mark_gift_delivered (user_db_id : Z) : M bool :=
  bind_param user_db_id ;;
  rowcount <- execute (Sql.update_gift_delivered user_db_id) ;;
  ret (0 <? rowcount)%nat.

Definition mark_gift_received (user_db_id : Z) : M bool :=
  bind_param user_db_id ;;
  rowcount <- execute (Sql.update_gift_received user_db_id) ;;
  ret (0 <? rowcount)%nat.

Definition notify_gift_delivered (user_db_id : Z) : M unit :=
  bind_param user_db_id ;;
  giver_result <- query (Sql.giver_of user_db_id) ;;
  match giver_result with
  | Some giver_id =>
      receiver_telegram <- query (Sql.user_by_id user_db_id) ;;
      match receiver_telegram with
      | Some row => send_message (telegram_id row) GiftDeliveredNotice
      | None => ret tt
      end
  | None => ret tt
  end.

Definition notify_gift_received (user_db_id : Z) : M unit :=
  bind_param user_db_id ;;
  result <- query (Sql.user_by_id user_db_id) ;;
  match result with
  | Some row => send_message (telegram_id row) GiftReceivedNotice
  | None => ret tt
  end.

(** [int(text.split()[1])]; [None] is the IndexError of a text with no
    second word or the ValueError of [int], which the handlers catch
    together. *)
Definition numeric_argument (text : str) : option Z :=
  split text !! 1%nat ≫= py_int.

Definition handle_admin_commands (chat_id : Z) (text : str) (user_id : Z)
    : M unit :=
  if negb (bool_decide (user_id ∈ ORGANIZER_IDS))
  then send_message chat_id NoAdminRightsText
  else if bool_decide (text = lit "/stats") then
    total_users <- query (λ d, length (users d)) ;;
    delivered_gifts <-
      query (λ d, length (filter (λ u, gift_delivered u = true) (users d))) ;;
    received_gifts <-
      query (λ d, length (filter (λ u, gift_received u = true) (users d))) ;;
    opened <- is_registration_open ;;
    started <- is_event_started ;;
    send_message chat_id
      (StatsText total_users delivered_gifts received_gifts opened started)
  else if bool_decide (text = lit "/users") then
    users <- get_all_users ;;
    match users with
    | [] => send_message chat_id NoUsersText
    | _ =>
        send_message chat_id
          (UsersListText
             ((λ user, (fio user, db_id user, group_name user,
                        gift_delivered user, gift_received user)) <$> users))
    end
  else if bool_decide (text = lit "/close") then
    close_registration ;;
    send_message chat_id CloseDoneText
  else if bool_decide (text = lit "/open") then
    open_registration ;;
    send_message chat_id OpenDoneText
  else if bool_decide (text = lit "/start_event") then
    count <- start_santa ;;
    if (1 <? count)%nat then
      send_message chat_id (DrawDoneText count) ;;
      notify_all_users
    else send_message chat_id NeedTwoText
  else if startswith text (lit "/del ") then
    match numeric_argument text with
    | Some user_id_to_delete =>
        user_info <- delete_user user_id_to_delete ;;
        match user_info with
        | Some row =>
            send_message chat_id
              (UserDeletedText (db_id row) (fio row) (group_name row)) ;;
            started <- is_event_started ;;
            if started then send_message chat_id RerunAdviceText else ret tt
        | None => send_message chat_id DeleteNotFoundText
        end
    | None => send_message chat_id DelUsageText
    end
  else if startswith text (lit "/gift ") then
    match numeric_argument text with
    | Some user_id_to_mark =>
        success <- mark_gift_delivered user_id_to_mark ;;
        if success then
          send_message chat_id (GiftMarkedText user_id_to_mark) ;;
          notify_gift_delivered user_id_to_mark
        else send_message chat_id UserNotFoundText
    | None => send_message chat_id GiftUsageText
    end
  else if startswith text (lit "/received ") then
    match numeric_argument text with
    | Some user_id_to_mark =>
        success <- mark_gift_received user_id_to_mark ;;
        if success
        then send_message chat_id (ReceivedMarkedText user_id_to_mark)
        else send_message chat_id UserNotFoundText
    | None => send_message chat_id ReceivedUsageText
    end
  else if bool_decide (text = lit "/help_admin")
  then send_message chat_id HelpAdminText
  else ret tt.

(** INSERT INTO users ...; [None] is the IntegrityError. *)
Definition insert_user (t : Z) (name group prefs : str) : M (option Z) :=
  λ s, match Sql.insert_user t name group prefs (santa_db s) with
       | Some (i, d) =>
           (Ok (Some i), mkState (last_update_id s) (user_data s) d
                                 (outbox s) (rng s))
       | None => (Ok None, s)
       end.

Definition get_session (user_id : Z) : M (option Session) :=
  λ s, (Ok (user_data s !! user_id), s).

Definition handle_message (chat_id user_id : Z) (user_name text : str)
    : M unit :=
  entry <- get_session user_id ;;
  match entry with
  | Some user_info =>
      match step user_info with
      | StepFio =>
          set_session user_id
            (mkSession StepGroup (Some text) (session_group user_info)) ;;
          send_message chat_id AskGroupText
      | StepGroup =>
          set_session user_id
            (mkSession StepPreferences (session_fio user_info) (Some text)) ;;
          send_message chat_id AskPreferencesText
      | StepPreferences =>
          match session_fio user_info, session_group user_info with
          | Some name, Some group =>
              user_db_id <- insert_user user_id name group text ;;
              match user_db_id with
              | Some i => send_message chat_id (RegisteredText i name group)
              | None => send_message chat_id AlreadyRegisteredShortText
              end ;;
              del_session user_id
          | _, _ => raise KeyError
          end
      end
  | None => send_message chat_id UseStartText
  end.

Definition admin_tokens : list str :=
  lit <$> ["/stats"; "/users"; "/close"; "/open"; "/start_event"; "/del";
           "/gift"; "/received"; "/help_admin"]%string.

Definition set_last_update_id (i : Z) : M unit :=
  λ s, (Ok tt, mkState i (user_data s) (santa_db s) (outbox s) (rng s)).

(** The body of the loop of [process_updates] after the cursor has been
    set: the routing of one update. *)
Definition dispatch (update : Update) : M unit :=
  match message update with
  | Some message =>
      let chat_id := chat_id_of message in
      let user_id := from_id message in
      let user_name := default friend (first_name message) in
      let text := strip (default [] (text_of message)) in
      if startswith text (lit "/")
         && existsb (startswith text) admin_tokens
      then handle_admin_commands chat_id text user_id
      else if bool_decide (text = lit "/start")
      then handle_start chat_id user_id user_name
      else if bool_decide (text = lit "/help")
      then send_message chat_id HelpText
      else handle_message chat_id user_id user_name text
  | None => ret tt
  end.

Definition process_updates (updates : list Update) : M unit :=
  for_each updates (λ update,
    set_last_update_id (update_id update) ;;
    dispatch update).

End Bot.

Arguments mkState {Rng}.
Arguments last_update_id {Rng}.
Arguments user_data {Rng}.
Arguments santa_db {Rng}.
Arguments outbox {Rng}.
Arguments rng {Rng}.
Arguments M : clear implicits.
Arguments ret {Rng A}.
Arguments bind {Rng A B}.
Arguments raise {Rng A}.
Arguments query {Rng A}.
Arguments execute {Rng}.
Arguments bind_param {Rng}.
Arguments for_each {Rng A}.
Arguments is_registration_open {Rng}.
Arguments is_event_started {Rng}.
Arguments get_updates_params {Rng}.
Arguments send_message {Rng}.
Arguments show_assignment {Rng}.
Arguments set_session {Rng}.
Arguments del_session {Rng}.
Arguments get_session {Rng}.
Arguments handle_start {Rng}.
Arguments get_all_users {Rng}.
Arguments close_registration {Rng}.
Arguments open_registration {Rng}.
Arguments random_shuffle {Rng}.
Arguments start_santa {Rng}.
Arguments delete_user {Rng}.
Arguments notify_all_users {Rng}.
Arguments mark_gift_delivered {Rng}.
Arguments mark_gift_received {Rng}.
Arguments notify_gift_delivered {Rng}.
Arguments notify_gift_received {Rng}.
Arguments handle_admin_commands ORGANIZER_IDS {Rng}.
Arguments insert_user {Rng}.
Arguments handle_message {Rng}.
Arguments set_last_update_id {Rng}.
Arguments dispatch ORGANIZER_IDS {Rng}.
Arguments process_updates ORGANIZER_IDS {Rng}.

(** ** The vocabulary of the properties *)

(** The receiver a participant has been given, as [show_assignment] reads
    it: the [santa_id] of the row with that id. *)
Definition recipient_of (d : Database) (g : Z) : option Z :=
  Sql.user_by_id g d ≫= santa_id.

(** Following the assignment [k] times from [g]. *)
Fixpoint follow (d : Database) (k : nat) (g : Z) : option Z :=
  match k with
  | O => Some g
  | S k' => follow d k' g ≫= recipient_of d
  end.

(** A row without its assignment: the id, the external id, the profile and
    the two delivery flags. *)
Definition profile (u : User) : User := Sql.set_santa_id None u.

(** The participant after position [i] of a draw. *)
Definition next_in (perm : list Z) (i : nat) : Z :=
  perm !!! ((i + 1) `mod` length perm)%nat.

(** The rows after the loop of [start_santa] over the shuffled ids. *)
Definition drawn (perm : list Z) (rows : list User) : list User :=
  foldl (λ rows i,
           Sql.update_where_id (Sql.set_santa_id (Some (next_in perm i)))
                               (perm !!! i) rows)
        rows (seq 0 (length perm)).

(** What the loop does to one row, over the positions [l]. *)
Definition draw_row (perm : list Z) (l : list nat) (u : User) : User :=
  foldl (λ u i, if decide (db_id u = perm !!! i)
                then Sql.set_santa_id (Some (next_in perm i)) u else u)
        u l.

(** The statements the loop executes. *)
Definition draw_statements (perm : list Z) : list Stmt :=
  (λ i, UpdateSantaId (next_in perm i) (perm !!! i)) <$> seq 0 (length perm).

(** The file after a draw over the shuffled ids [perm]. *)
Definition after_draw (perm : list Z) (d : Database) : Database :=
  mkDatabase (drawn perm (users d))
             ((λ es, mkSettings (registration_open es) true)
                <$> event_settings d)
             (sequence d)
             (journal d ++ draw_statements perm ++ [UpdateEventStarted]).

(** The message [show_assignment] sends for a participant. *)
Definition assignment_view (d : Database) (user_db_id : Z) : Msg :=
  match recipient_of d user_db_id with
  | Some receiver_id =>
      if receiver_id =? 0 then NoAssignmentText
      else AssignmentText receiver_id
             (from_option preferences not_specified
                          (Sql.user_by_id receiver_id d))
  | None => NoAssignmentText
  end.

(** A state after one more call of [send_message]. *)
Definition answered {Rng} (chat_id : Z) (text : Msg) (s : State Rng)
    : State Rng :=
  mkState (last_update_id s) (user_data s) (santa_db s)
          (outbox s ++ [(chat_id, text)]) (rng s).

(** A state with another file. *)
Definition with_db {Rng} (d : Database) (s : State Rng) : State Rng :=
  mkState (last_update_id s) (user_data s) d (outbox s) (rng s).

(** A state with another cursor. *)
Definition with_cursor {Rng} (i : Z) (s : State Rng) : State Rng :=
  mkState i (user_data s) (santa_db s) (outbox s) (rng s).

(** What [is_registration_open] and [is_event_started] answer. *)
Definition registration_opened (d : Database) : bool :=
  from_option registration_open false (event_settings d).

Definition event_has_started (d : Database) : bool :=
  from_option event_started false (event_settings d).

(** The order in which the shuffle of a run started in [s] leaves the
    ids. *)
Definition shuffled {Rng} (shuffle : Rng → list Z → list Z * Rng)
    (s : State Rng) : list Z :=
  (shuffle (rng s) (Sql.ids (santa_db s))).1.

(** A computation that leaves the cursor where it found it, however it
    ends. *)
Definition keeps_cursor {Rng A} (m : M Rng A) : Prop :=
  ∀ s, last_update_id (m s).2 = last_update_id s.

(** ** Effects, one at a time *)

(** What a statement of the journal does to the file.  A refused INSERT
    (the IntegrityError) leaves it as it was. *)
Definition run_stmt (st : Stmt) (d : Database) : Database :=
  match st with
  | UpdateRegistrationOpen value => (Sql.update_registration_open value d).2
  | UpdateEventStarted => (Sql.update_event_started d).2
  | UpdateSantaId receiver giver => (Sql.update_santa_id receiver giver d).2
  | UpdateGiftDelivered i => (Sql.update_gift_delivered i d).2
  | UpdateGiftReceived i => (Sql.update_gift_received i d).2
  | DeleteUser i => (Sql.delete_where_id i d).2
  | InsertUser t name group prefs =>
      match Sql.insert_user t name group prefs d with
      | Some (_, d') => d'
      | None => d
      end
  end.

Definition is_insert (st : Stmt) : bool :=
  match st with InsertUser _ _ _ _ => true | _ => false end.

(** The single effects [handle_admin_commands] is made of: a message, a
    statement other than the INSERT, a use of the generator. *)
Inductive admin_step {Rng} : State Rng → State Rng → Prop :=
| admin_sends chat_id text s : admin_step s (answered chat_id text s)
| admin_writes st s :
    is_insert st = false →
    admin_step s (with_db (run_stmt st (santa_db s)) s)
| admin_draws g s :
    admin_step s (mkState (last_update_id s) (user_data s) (santa_db s)
                          (outbox s) g).

(** The single effects of the whole loop: those, the INSERT of a
    registration, the writes to a session, the move of the cursor. *)
Inductive bot_step {Rng} : State Rng → State Rng → Prop :=
| bot_admin s s' : admin_step s s' → bot_step s s'
| bot_registers t name group prefs s :
    bot_step s
      (with_db (run_stmt (InsertUser t name group prefs) (santa_db s)) s)
| bot_sets_session user_id v s :
    bot_step s (mkState (last_update_id s) (<[user_id := v]> (user_data s))
                        (santa_db s) (outbox s) (rng s))
| bot_drops_session user_id s :
    bot_step s (mkState (last_update_id s) (delete user_id (user_data s))
                        (santa_db s) (outbox s) (rng s))
| bot_moves_cursor i s : bot_step s (with_cursor i s).

(** A computation whose runs, however they end, relate the state before to
    the state after. *)
Definition respects {Rng A} (R : State Rng → State Rng → Prop)
    (m : M Rng A) : Prop :=
  ∀ s, R s (m s).2.

(** A computation that raises nothing but [e]. *)
Definition raises_only {Rng A} (e : Exc) (m : M Rng A) : Prop :=
  ∀ s e', (m s).1 = Raise e' → e' = e.

(** ** Invariants of the file and of the sessions *)

(** SELECT telegram_id FROM users *)
Definition telegram_ids (d : Database) : list Z := telegram_id <$> users d.

(** The AUTOINCREMENT counter is not behind the ids in the table. *)
Definition counted (d : Database) : Prop :=
  ∀ i, i ∈ Sql.ids d → i ≤ sequence d.

(** Every row with the id [g] has its flag set. *)
Definition delivered (g : Z) (d : Database) : Prop :=
  ∀ u, u ∈ users d → db_id u = g → gift_delivered u = true.

Definition received (g : Z) (d : Database) : Prop :=
  ∀ u, u ∈ users d → db_id u = g → gift_received u = true.

(** The shape the dicts of [user_data] have when the bot made them: the
    sender has no row yet, and the fields of the steps already answered
    are there. *)
Definition session_ok (d : Database) (user_id : Z) (v : Session) : Prop :=
  Sql.user_by_telegram_id user_id d = None
  ∧ match step v with
    | StepFio => True
    | StepGroup => is_Some (session_fio v)
    | StepPreferences => is_Some (session_fio v) ∧ is_Some (session_group v)
    end.

Definition sessions_ok {Rng} (s : State Rng) : Prop :=
  ∀ user_id v, user_data s !! user_id = Some v →
               session_ok (santa_db s) user_id v.

(** A text the router hands to [handle_message]: not one that begins with
    an admin token, not /start, not /help. *)
Definition plain (text : str) : Prop :=
  startswith text (lit "/") && existsb (startswith text) admin_tokens = false
  ∧ text ≠ lit "/start" ∧ text ≠ lit "/help".

(** The text of a message as the router sees it. *)
Definition said (m : Message) : str := strip (default [] (text_of m)).

(** ** Updates as the transport delivers them *)

(** A message before [process_updates] has read its keys.  Every message of
    the transport has the key "chat"; the key "from" is missing in a post
    without a sender, and subscripting it then raises KeyError.  The name
    is the "first_name" of the sender, if given. *)
Record Incoming := mkIncoming {
  incoming_chat_id : Z;
  incoming_from : option (Z * option str);
  incoming_text : option str
}.

Record IncomingUpdate := mkIncomingUpdate {
  incoming_update_id : Z;
  incoming_message : option Incoming
}.

(** The body of the loop of [process_updates] after the cursor has been
    set, from the reading of the keys on. *)
Definition receive {Rng} (ORGANIZER_IDS : list Z)
    (shuffle : Rng → list Z → list Z * Rng) (py_int : str → option Z)
    (update : IncomingUpdate) : M Rng unit :=
  match incoming_message update with
  | Some message =>
      match incoming_from message with
      | Some (user_id, user_name) =>
          dispatch ORGANIZER_IDS shuffle py_int
            (mkUpdate (incoming_update_id update)
               (Some (mkMessage (incoming_chat_id message) user_id user_name
                                (incoming_text message))))
      | None => raise KeyError
      end
  | None => ret tt
  end.

(** [process_updates] over such updates. *)
Definition process_incoming {Rng} (ORGANIZER_IDS : list Z)
    (shuffle : Rng → list Z → list Z * Rng) (py_int : str → option Z)
    (updates : list IncomingUpdate) : M Rng unit :=
  for_each updates (λ update,
    bind (set_last_update_id (incoming_update_id update))
         (λ _, receive ORGANIZER_IDS shuffle py_int update)).

(** ** The transport *)

(** How one attempt of [make_request] ends: a response with its status
    code and what [response.json()] gives ([None] when it raises), or one
    of the exceptions the loop catches. *)
Inductive Attempt (J : Type) :=
| Responded (status_code : Z) (json : option J)
| TimedOut
| ConnectionFailed
| Failed.
Arguments Responded {J} status_code json.
Arguments TimedOut {J}.
Arguments ConnectionFailed {J}.
Arguments Failed {J}.

(** What the attempt returns from the loop, if it does. *)
Definition success {J} (a : Attempt J) : option J :=
  match a with
  | Responded status_code (Some j) =>
      if status_code =? 200 then Some j else None
  | _ => None
  end.

(** What a call of [make_request] comes to: the value returned, the
    attempts made and the seconds slept between them. *)
Record Call (J : Type) := mkCall {
  returned : option J;
  attempts : nat;
  slept : Z
}.
Arguments mkCall {J}.
Arguments returned {J}.
Arguments attempts {J}.
Arguments slept {J}.

(** The loop of [make_request] over the attempt numbers [range]; [net]
    says how each attempt ends. *)
Fixpoint request_loop {J} (net : nat → Attempt J) (range : list nat)
    (made : nat) (waited : Z) : Call J :=
  match range with
  | [] => mkCall None made waited
  | attempt :: range' =>
      match success (net attempt) with
      | Some j => mkCall (Some j) (S made) waited
      | None =>
          request_loop net range' (S made)
            (if (attempt <? 2)%nat then waited + 2 else waited)
      end
  end.

Definition make_request {J} (net : nat → Attempt J) : Call J :=
  request_loop net (seq 0 3) 0 0.

(** The JSON object of a reply, as far as it is read: the keys "ok" and
    "result". *)
Record Reply := mkReply {
  reply_ok : bool;
  reply_result : option (list Update)
}.

(** The batch [get_updates] returns. *)
Definition get_updates (net : nat → Attempt Reply) : list Update :=
  match returned (make_request net) with
  | Some result => if reply_ok result then default [] (reply_result result)
                   else []
  | None => []
  end.

(** The boolean [send_message] returns. *)
Definition send_message_result (net : nat → Attempt Reply) : bool :=
  match returned (make_request net) with
  | Some result => reply_ok result
  | None => false
  end.

(** ** Sample data *)

Definition organizers : list Z := [100].

(** A shuffle that turns the list round; it leaves the generator alone. *)
Definition reversing (g : unit) (l : list Z) : list Z * unit := (reverse l, g).

Definition alice : User :=
  mkUser 1 101 (lit "Alice") (lit "A-1") (lit "tea") None false false.
Definition bob : User :=
  mkUser 2 102 (lit "Bob") (lit "A-1") (lit "books") None true false.
Definition carol : User :=
  mkUser 3 103 (lit "Carol") (lit "B-2") (lit "socks") None false true.

(** Three registered participants, no draw yet. *)
Definition registered : Database :=
  mkDatabase [alice; bob; carol] (Some (mkSettings true false)) 3 [].

(** The same three after a draw 1 → 2 → 3 → 1. *)
Definition assigned : Database :=
  mkDatabase [Sql.set_santa_id (Some 2) alice; Sql.set_santa_id (Some 3) bob;
              Sql.set_santa_id (Some 1) carol]
             (Some (mkSettings false true)) 3 [].

(** One participant only. *)
Definition lonely : Database :=
  mkDatabase [alice] (Some (mkSettings true false)) 1 [].

Definition fresh (d : Database) : State unit :=
  mkState 0 ∅ d [] tt.

(** Dana (external id 7) has sent her name and is being asked for her
    group. *)
Definition midway : State unit :=
  mkState 41 {[ 7 := mkSession StepGroup (Some (lit "Dana")) None ]}
          registered [] tt.

Definition says (i from : Z) (text : string) : Update :=
  mkUpdate i (Some (mkMessage from from (Some (lit "Dana")) (Some (lit text)))).

(** Carol (3) has been deleted. *)
Definition two_left : Database :=
  mkDatabase [alice; bob] (Some (mkSettings true false)) 3 [DeleteUser 3].

(** Dana's whole dialogue. *)
Definition dialogue : list Update :=
  [says 2 7 "/start"; says 3 7 "Dana"; says 4 7 "B-2"; says 5 7 "tea"].

(** Dana's two remaining answers. *)
Definition answers : list Update := [says 42 7 "B-2"; says 43 7 "tea"].

(** An organizer's /gift with a number beyond 64 bits. *)
Definition too_large : Update := says 44 100 "/gift 99999999999999999999".

(** Dana's next answer, followed by a post that has no sender. *)
Definition with_post : list IncomingUpdate :=
  [mkIncomingUpdate 42
     (Some (mkIncoming 7 (Some (7, Some (lit "Dana"))) (Some (lit "B-2"))));
   mkIncomingUpdate 43 (Some (mkIncoming 55 None (Some (lit "news"))));
   mkIncomingUpdate 44
     (Some (mkIncoming 7 (Some (7, Some (lit "Dana"))) (Some (lit "tea"))))].

(** Dana is being asked for her preferences; meanwhile registration has
    been closed and the draw has run. *)
Definition waiting : State unit :=
  mkState 43
          {[ 7 := mkSession StepPreferences (Some (lit "Dana"))
                            (Some (lit "B-2")) ]}
          assigned [] tt.

(** ** The string operations on the texts of the source *)

Example strip_ex : strip (lit "  /del 5 ") = lit "/del 5".
Proof. reflexivity. Qed.

Example split_ex : split (lit "/del  5 x") = [lit "/del"; lit "5"; lit "x"].
Proof. reflexivity. Qed.

Example split_bare : split (lit "/del") !! 1%nat = None.
Proof. reflexivity. Qed.

Example startswith_ex :
  startswith (lit "/del 5") (lit "/del ") = true
  ∧ startswith (lit "/del") (lit "/del ") = false.
Proof. split; reflexivity. Qed.

Example ascii_int_ex :
  ascii_int (lit "42") = Some 42 ∧ ascii_int (lit "-7") = Some (-7)
  ∧ ascii_int (lit "1_0") = Some 10 ∧ ascii_int (lit "abc") = None
  ∧ ascii_int (lit "1__0") = None ∧ ascii_int (lit "+") = None.
Proof. repeat split; reflexivity. Qed.

(** ** The draw, row by row *)

Lemma draw_rows_fmap perm l rows :
  foldl (λ rows i,
           Sql.update_where_id (Sql.set_santa_id (Some (next_in perm i)))
                               (perm !!! i) rows) rows l
  = draw_row perm l <$> rows.
Proof.
  revert rows. induction l as [|i l IH]; intros rows; simpl.
  - symmetry. apply list_fmap_id.
  - rewrite IH. unfold Sql.update_where_id.
    rewrite <- list_fmap_compose. reflexivity.
Qed.

Lemma drawn_fmap perm rows :
  drawn perm rows = draw_row perm (seq 0 (length perm)) <$> rows.
Proof. apply draw_rows_fmap. Qed.

Lemma draw_row_profile perm l u : profile (draw_row perm l u) = profile u.
Proof.
  revert u. induction l as [|i l IH]; intros u; simpl; [reflexivity|].
  rewrite IH. case_decide; reflexivity.
Qed.

Lemma draw_row_db_id perm l u : db_id (draw_row perm l u) = db_id u.
Proof. exact (f_equal db_id (draw_row_profile perm l u)). Qed.

Lemma draw_row_skip perm l u :
  (∀ i, i ∈ l → perm !!! i ≠ db_id u) → draw_row perm l u = u.
Proof.
  induction l as [|i l IH]; intros Hl; simpl; [reflexivity|].
  rewrite decide_False.
  - apply IH. intros j Hj. apply Hl. by right.
  - intros E. eapply Hl; [by left|]. by symmetry.
Qed.

Lemma lookup_total_inj (perm : list Z) i j :
  NoDup perm → (i < length perm)%nat → (j < length perm)%nat →
  perm !!! i = perm !!! j → i = j.
Proof.
  intros Hnd Hi Hj E.
  apply (NoDup_lookup perm i j (perm !!! i)); [assumption| |].
  - by apply list_lookup_lookup_total_lt.
  - rewrite E. by apply list_lookup_lookup_total_lt.
Qed.

Lemma draw_row_hit perm i u :
  NoDup perm → (i < length perm)%nat → db_id u = perm !!! i →
  draw_row perm (seq 0 (length perm)) u
  = Sql.set_santa_id (Some (next_in perm i)) u.
Proof.
  intros Hnd Hi Hu.
  replace (length perm) with (i + (1 + (length perm - S i)))%nat at 1 by lia.
  rewrite !seq_app. unfold draw_row. rewrite !foldl_app.
  fold (draw_row perm (seq 0 i) u). rewrite draw_row_skip.
  2:{ intros j Hj E. apply elem_of_seq in Hj. rewrite Hu in E.
      apply lookup_total_inj in E; [lia|done|lia|done]. }
  simpl. rewrite decide_True by done.
  apply draw_row_skip. intros j Hj E. apply elem_of_seq in Hj.
  simpl in E. rewrite Hu in E.
  apply lookup_total_inj in E; [lia|done|lia|done].
Qed.

(** ** Running the monad *)

Section Runs.

Context {Rng : Type}.
Implicit Types s : State Rng.

Lemma state_eta s :
  mkState (last_update_id s) (user_data s) (santa_db s) (outbox s) (rng s) = s.
Proof. by destruct s. Qed.

Lemma for_each_execute {A} (l : list A)
    (w : A → Database → nat * Database) s :
  for_each l (λ x, bind (execute (w x)) (λ _, ret tt)) s
  = (Ok tt, mkState (last_update_id s) (user_data s)
                    (foldl (λ d x, (w x d).2) (santa_db s) l)
                    (outbox s) (rng s)).
Proof.
  revert s. induction l as [|x l IH]; intros s; simpl.
  - unfold ret. by rewrite state_eta.
  - unfold bind at 1. unfold bind at 1. simpl. by rewrite IH.
Qed.

Lemma draw_loop_database perm l d :
  foldl (λ d i, (Sql.update_santa_id (next_in perm i) (perm !!! i) d).2) d l
  = mkDatabase
      (foldl (λ rows i,
                Sql.update_where_id (Sql.set_santa_id (Some (next_in perm i)))
                                    (perm !!! i) rows) (users d) l)
      (event_settings d) (sequence d)
      (journal d ++ ((λ i, UpdateSantaId (next_in perm i) (perm !!! i)) <$> l)).
Proof.
  revert d. induction l as [|i l IH]; intros d; simpl.
  - rewrite app_nil_r. by destruct d.
  - rewrite IH. simpl. by rewrite <- app_assoc.
Qed.

Lemma start_santa_few shuffle s :
  (length (users (santa_db s)) < 2)%nat →
  start_santa shuffle s = (Ok (length (users (santa_db s))), s).
Proof.
  intros Hn. unfold start_santa, bind, query, Sql.ids. simpl.
  rewrite length_fmap.
  destruct (Nat.ltb_spec (length (users (santa_db s))) 2); [done|lia].
Qed.

Lemma start_santa_run shuffle s :
  (2 ≤ length (users (santa_db s)))%nat →
  start_santa shuffle s
  = let perm := (shuffle (rng s) (Sql.ids (santa_db s))).1 in
    (Ok (length perm),
     mkState (last_update_id s) (user_data s)
             (after_draw perm (santa_db s)) (outbox s)
             (shuffle (rng s) (Sql.ids (santa_db s))).2).
Proof.
  intros Hn. unfold start_santa. unfold bind at 1. unfold query at 1.
  unfold Sql.ids at 1 2. rewrite length_fmap.
  destruct (Nat.ltb_spec (length (users (santa_db s))) 2); [lia|].
  unfold bind at 1. unfold random_shuffle at 1.
  fold (Sql.ids (santa_db s)).
  destruct (shuffle (rng s) (Sql.ids (santa_db s))) as [perm g] eqn:Hsh.
  unfold bind at 1. rewrite for_each_execute. cbv beta zeta.
  change (λ (d : Database) (x : nat),
            (Sql.update_santa_id (perm !!! ((x + 1) `mod` length perm)%nat)
                                 (perm !!! x) d).2)
    with (λ (d : Database) (i : nat),
            (Sql.update_santa_id (next_in perm i) (perm !!! i) d).2).
  rewrite draw_loop_database.
  unfold bind, execute, ret, after_draw, drawn, draw_statements,
    Sql.update_event_started, Sql.logged.
  cbn. by rewrite <- app_assoc.
Qed.

End Runs.

(** ** Looking rows up *)

Lemma user_by_id_Some i d u :
  Sql.user_by_id i d = Some u → u ∈ users d ∧ db_id u = i.
Proof.
  unfold Sql.user_by_id. intros H.
  destruct (list_find _ _) as [[j v]|] eqn:E; simplify_eq/=.
  apply list_find_Some in E as (Hj & Hv & _).
  split; [by eapply list_elem_of_lookup_2|done].
Qed.

Lemma user_by_id_None i d : i ∉ Sql.ids d → Sql.user_by_id i d = None.
Proof.
  unfold Sql.user_by_id, Sql.ids. intros Hi.
  destruct (list_find _ _) as [[j v]|] eqn:E; [|done].
  apply list_find_Some in E as (Hj & Hv & _). exfalso. apply Hi.
  apply list_elem_of_fmap. exists v. split; [done|].
  by eapply list_elem_of_lookup_2.
Qed.

Lemma user_by_id_elem i d :
  i ∈ Sql.ids d → ∃ u, Sql.user_by_id i d = Some u.
Proof.
  unfold Sql.ids, Sql.user_by_id.
  intros (u & -> & Hu)%list_elem_of_fmap.
  destruct (list_find_elem_of (λ v, db_id v = db_id u) (users d) u)
    as [[j v] E]; [done..|].
  rewrite E. by exists v.
Qed.

Lemma user_by_id_fmap (f : User → User) i rows es sq jl sq' jl' es' :
  (∀ u, db_id (f u) = db_id u) →
  Sql.user_by_id i (mkDatabase (f <$> rows) es sq jl)
  = f <$> Sql.user_by_id i (mkDatabase rows es' sq' jl').
Proof.
  intros Hf. unfold Sql.user_by_id. simpl.
  induction rows as [|u rows IH]; [done|]. csimpl.
  rewrite Hf. case_decide; [done|].
  destruct (list_find _ (f <$> rows)) as [[j v]|],
           (list_find _ rows) as [[j' v']|]; simplify_eq/=; done.
Qed.

Lemma rows_inj (rows : list User) u v :
  NoDup (db_id <$> rows) → u ∈ rows → v ∈ rows → db_id u = db_id v → u = v.
Proof.
  intros Hnd [a Ha]%list_elem_of_lookup_1 [b Hb]%list_elem_of_lookup_1 E.
  assert (a = b) as ->; [|congruence].
  apply (NoDup_lookup _ a b (db_id u) Hnd); rewrite list_lookup_fmap.
  - by rewrite Ha.
  - by rewrite Hb, E.
Qed.

(** ** Arithmetic of positions on a cycle *)

Lemma mod_below a n : (a < n)%nat → (a `mod` n)%nat = a.
Proof. apply Nat.mod_small. Qed.

Lemma mod_wrap a n : (n ≤ a < 2 * n)%nat → (a `mod` n)%nat = (a - n)%nat.
Proof.
  intros H. replace a with ((a - n) + 1 * n)%nat at 1 by lia.
  rewrite Nat.Div0.mod_add. apply Nat.mod_small. lia.
Qed.

Lemma succ_mod_add i k n :
  (0 < n)%nat → (((i + k) `mod` n + 1) `mod` n = (i + S k) `mod` n)%nat.
Proof.
  intros Hn. rewrite Nat.Div0.add_mod_idemp_l. f_equal. lia.
Qed.

(** ** The file after a draw *)

Section Cycle.

Variable perm : list Z.
Variable d : Database.

(** [id] is the primary key, and the shuffle returns its input in some
    order. *)
Hypothesis ids_NoDup : NoDup (Sql.ids d).
Hypothesis perm_ids : perm ≡ₚ Sql.ids d.

Lemma perm_NoDup : NoDup perm.
Proof. by rewrite perm_ids. Qed.

Lemma perm_length : length perm = length (users d).
Proof. rewrite perm_ids. unfold Sql.ids. apply length_fmap. Qed.

Lemma after_draw_profiles :
  profile <$> users (after_draw perm d) = profile <$> users d.
Proof.
  unfold after_draw. simpl. rewrite drawn_fmap, <- list_fmap_compose.
  apply list_fmap_ext. intros _ u _. apply draw_row_profile.
Qed.

Lemma after_draw_ids : Sql.ids (after_draw perm d) = Sql.ids d.
Proof.
  unfold Sql.ids.
  change db_id with (db_id ∘ profile).
  rewrite !list_fmap_compose. by rewrite after_draw_profiles.
Qed.

Lemma user_by_id_after_draw i :
  Sql.user_by_id i (after_draw perm d)
  = draw_row perm (seq 0 (length perm)) <$> Sql.user_by_id i d.
Proof.
  unfold after_draw. rewrite drawn_fmap. destruct d as [rows es sq jl].
  apply user_by_id_fmap. intros u. apply draw_row_db_id.
Qed.

Lemma position_of g :
  g ∈ Sql.ids d → ∃ i, (i < length perm)%nat ∧ perm !!! i = g.
Proof. rewrite <- perm_ids. apply list_elem_of_lookup_total_1. Qed.

Lemma at_position i : (i < length perm)%nat → perm !!! i ∈ Sql.ids d.
Proof. rewrite <- perm_ids. apply list_elem_of_lookup_total_2. Qed.

Lemma recipient_after_draw i :
  (i < length perm)%nat →
  recipient_of (after_draw perm d) (perm !!! i) = Some (next_in perm i).
Proof.
  intros Hi. unfold recipient_of. rewrite user_by_id_after_draw.
  destruct (user_by_id_elem (perm !!! i) d (at_position i Hi)) as [u Hu].
  rewrite Hu. simpl. apply user_by_id_Some in Hu as [_ Hu].
  rewrite (draw_row_hit perm i u perm_NoDup Hi Hu). reflexivity.
Qed.

Lemma follow_after_draw i k :
  (i < length perm)%nat →
  follow (after_draw perm d) k (perm !!! i)
  = Some (perm !!! ((i + k) `mod` length perm)%nat).
Proof.
  intros Hi. induction k as [|k IH]; simpl.
  - by rewrite Nat.add_0_r, mod_below.
  - rewrite IH. simpl. rewrite recipient_after_draw.
    + unfold next_in. rewrite succ_mod_add by lia. reflexivity.
    + apply Nat.mod_upper_bound. lia.
Qed.

Lemma next_in_differs i :
  (2 ≤ length perm)%nat → (i < length perm)%nat →
  next_in perm i ≠ perm !!! i.
Proof.
  intros Hn Hi E. unfold next_in in E.
  apply lookup_total_inj in E; [|apply perm_NoDup| |done].
  - destruct (decide (i + 1 < length perm)%nat).
    + rewrite mod_below in E; lia.
    + rewrite mod_wrap in E; lia.
  - apply Nat.mod_upper_bound. lia.
Qed.

Lemma row_after_draw u :
  u ∈ users (after_draw perm d) →
  ∃ i, (i < length perm)%nat ∧ db_id u = perm !!! i
       ∧ santa_id u = Some (next_in perm i).
Proof.
  unfold after_draw. simpl. rewrite drawn_fmap.
  intros (v & -> & Hv)%list_elem_of_fmap.
  destruct (position_of (db_id v)) as (i & Hi & E).
  { unfold Sql.ids. by apply list_elem_of_fmap_2. }
  exists i. rewrite draw_row_db_id. split_and!; [done..|].
  by rewrite (draw_row_hit perm i v perm_NoDup Hi).
Qed.

Lemma receivers_Permutation :
  santa_id <$> users (after_draw perm d)
  ≡ₚ Some <$> Sql.ids (after_draw perm d).
Proof.
  assert (NoDup (Sql.ids (after_draw perm d))) as Hnd
    by (by rewrite after_draw_ids).
  apply submseteq_length_Permutation;
    [|by unfold Sql.ids; rewrite !length_fmap].
  apply NoDup_submseteq.
  - apply NoDup_fmap_2_strong; [|by eapply NoDup_fmap_1].
    intros u v Hu Hv E. apply (rows_inj _ u v Hnd Hu Hv).
    destruct (row_after_draw u Hu) as (i & Hi & Eu & Su).
    destruct (row_after_draw v Hv) as (j & Hj & Ev & Sv).
    rewrite Eu, Ev. f_equal. rewrite Su, Sv in E. injection E as E.
    unfold next_in in E.
    apply lookup_total_inj in E;
      [|apply perm_NoDup|apply Nat.mod_upper_bound; lia..].
    destruct (decide (i + 1 < length perm)%nat),
             (decide (j + 1 < length perm)%nat);
      rewrite ?mod_below, ?mod_wrap in E by lia;
      rewrite ?mod_below, ?mod_wrap in E by lia; lia.
  - intros x (u & -> & Hu)%list_elem_of_fmap.
    destruct (row_after_draw u Hu) as (i & Hi & _ & ->).
    apply list_elem_of_fmap_2. rewrite after_draw_ids.
    apply at_position. apply Nat.mod_upper_bound. lia.
Qed.

End Cycle.

(** ** Properties of the bot *)

(** Decides the comparisons between two literals of the source. *)
Ltac literal_tests :=
  repeat match goal with
  | |- context [bool_decide (lit ?a = lit ?b)] =>
      let v := eval vm_compute in (bool_decide (lit a = lit b)) in
      change (bool_decide (lit a = lit b)) with v
  | |- context [startswith (lit ?a) (lit ?b)] =>
      let v := eval vm_compute in (startswith (lit a) (lit b)) in
      change (startswith (lit a) (lit b)) with v
  end.

(** Enters the command branches of [handle_admin_commands] for a sender
    known to be an organizer. *)
Ltac as_organizer H :=
  unfold handle_admin_commands;
  rewrite (bool_decide_true _ H); change (negb true) with false; cbv iota;
  literal_tests; cbv iota.

(** Decides the tests of the command branches on a text known to begin
    with a literal. *)
Ltac prefixed_tests rest :=
  repeat match goal with
  | |- context [bool_decide (lit ?a ++ rest = lit ?b)] =>
      rewrite (bool_decide_false (lit a ++ rest = lit b))
        by (let E := fresh in intros E; vm_compute in E; discriminate E)
  | |- context [startswith (lit ?a ++ rest) (lit ?b)] =>
      let v := eval vm_compute in (startswith (lit a ++ rest) (lit b)) in
      change (startswith (lit a ++ rest) (lit b)) with v
  end.

Create HintDb cursor.

Section Properties.

Context {Rng : Type}.
Variable ORGANIZER_IDS : list Z.
Variable shuffle : Rng → list Z → list Z * Rng.
Variable py_int : str → option Z.
Implicit Types s : State Rng.

(** C1. With at least two participants, [start_santa] returns their number
    and leaves an assignment in which the participant at position [i] of
    the shuffled ids gives to the one at position [(i+1) mod n]; nobody
    gives to themselves, the receivers are the participants, each once, and
    following the assignment from any participant reaches every other in
    fewer than [n] steps and comes back only after [n]: one cycle through
    all of them. *)
Theorem start_santa_single_cycle s :
  NoDup (Sql.ids (santa_db s)) →
  (2 ≤ length (users (santa_db s)))%nat →
  shuffled shuffle s ≡ₚ Sql.ids (santa_db s) →
  let n := length (users (santa_db s)) in
  let d' := santa_db (start_santa shuffle s).2 in
  (start_santa shuffle s).1 = Ok n
  ∧ Sql.ids d' = Sql.ids (santa_db s)
  ∧ (∀ i, (i < n)%nat →
       recipient_of d' (shuffled shuffle s !!! i)
       = Some (shuffled shuffle s !!! ((i + 1) `mod` n)%nat))
  ∧ (∀ g, g ∈ Sql.ids d' → recipient_of d' g ≠ Some g)
  ∧ santa_id <$> users d' ≡ₚ Some <$> Sql.ids d'
  ∧ (∀ a b, a ∈ Sql.ids d' → b ∈ Sql.ids d' →
       ∃ k, (k < n)%nat ∧ follow d' k a = Some b)
  ∧ (∀ a k, a ∈ Sql.ids d' → (0 < k < n)%nat → follow d' k a ≠ Some a).
Proof.
  intros Hnd Hn Hperm n d'.
  pose proof (perm_length _ _ Hperm) as Hlen. fold n in Hlen.
  assert (d' = after_draw (shuffled shuffle s) (santa_db s)) as Hd'.
  { unfold d'. by rewrite start_santa_run. }
  assert (Sql.ids d' = Sql.ids (santa_db s)) as Hids.
  { rewrite Hd'. by apply after_draw_ids. }
  rewrite Hd' in *. clear d' Hd'.
  split_and!.
  - rewrite start_santa_run by done. simpl. fold (shuffled shuffle s).
    by f_equal.
  - done.
  - intros i Hi. rewrite recipient_after_draw by (done || lia).
    unfold next_in. by rewrite Hlen.
  - intros g Hg. rewrite Hids in Hg.
    destruct (position_of _ _ Hperm g Hg) as (i & Hi & <-).
    rewrite recipient_after_draw by done.
    intros [= E]. apply (next_in_differs _ _ Hnd Hperm i); [lia|done|done].
  - by apply receivers_Permutation.
  - intros a b Ha Hb. rewrite Hids in Ha, Hb.
    destruct (position_of _ _ Hperm a Ha) as (i & Hi & <-).
    destruct (position_of _ _ Hperm b Hb) as (j & Hj & <-).
    destruct (decide (i ≤ j)%nat).
    + exists (j - i)%nat. split; [lia|].
      rewrite follow_after_draw by done. do 2 f_equal.
      rewrite mod_below; lia.
    + exists (length (shuffled shuffle s) + j - i)%nat. split; [lia|].
      rewrite follow_after_draw by done. do 2 f_equal.
      rewrite mod_wrap; lia.
  - intros a k Ha Hk. rewrite Hids in Ha.
    destruct (position_of _ _ Hperm a Ha) as (i & Hi & <-).
    rewrite follow_after_draw by done. intros [= E].
    apply lookup_total_inj in E;
      [|by eapply perm_NoDup|apply Nat.mod_upper_bound; lia|done].
    destruct (decide (i + k < length (shuffled shuffle s))%nat).
    + rewrite mod_below in E; lia.
    + rewrite mod_wrap in E; lia.
Qed.

(** C9. A run of [start_santa] over rows that already carry an assignment
    (or flags, or anything else) leaves every column but [santa_id] of
    every row as it was, rows in the same order, and gives every row the
    receiver of the new cycle, whatever it held before. *)
Theorem start_santa_again_overwrites s :
  NoDup (Sql.ids (santa_db s)) →
  (2 ≤ length (users (santa_db s)))%nat →
  shuffled shuffle s ≡ₚ Sql.ids (santa_db s) →
  let n := length (users (santa_db s)) in
  let d' := santa_db (start_santa shuffle s).2 in
  profile <$> users d' = profile <$> users (santa_db s)
  ∧ (∀ j u u', users (santa_db s) !! j = Some u → users d' !! j = Some u' →
       db_id u' = db_id u ∧ telegram_id u' = telegram_id u
       ∧ fio u' = fio u ∧ group_name u' = group_name u
       ∧ preferences u' = preferences u
       ∧ gift_delivered u' = gift_delivered u
       ∧ gift_received u' = gift_received u)
  ∧ (∀ u', u' ∈ users d' →
       ∃ i, (i < n)%nat ∧ db_id u' = shuffled shuffle s !!! i
            ∧ santa_id u'
              = Some (shuffled shuffle s !!! ((i + 1) `mod` n)%nat)).
Proof.
  intros Hnd Hn Hperm n d'.
  pose proof (perm_length _ _ Hperm) as Hlen. fold n in Hlen.
  assert (d' = after_draw (shuffled shuffle s) (santa_db s)) as ->.
  { unfold d'. by rewrite start_santa_run. }
  pose proof (after_draw_profiles (shuffled shuffle s) (santa_db s)) as Hp.
  split_and!.
  - done.
  - intros j u u' Hu Hu'.
    assert (profile u' = profile u) as E.
    { apply (f_equal (λ l, l !! j)) in Hp.
      rewrite !list_lookup_fmap, Hu, Hu' in Hp. simpl in Hp. congruence. }
    destruct u, u'. by injection E as -> -> -> -> -> -> ->.
  - intros u' Hu'.
    destruct (row_after_draw _ _ Hnd Hperm u' Hu') as (i & Hi & E & Sa).
    exists i. split_and!; [lia|done|]. rewrite Sa. unfold next_in.
    by rewrite Hlen.
Qed.

(** C4. With fewer than two participants [start_santa] writes nothing: the
    file, journal included, and everything else are as before, and the
    number it returns is below two, which the /start_event branch answers
    with the need-two message and nothing more. *)
Theorem start_event_needs_two s chat_id user_id :
  user_id ∈ ORGANIZER_IDS →
  (length (users (santa_db s)) < 2)%nat →
  start_santa shuffle s = (Ok (length (users (santa_db s))), s)
  ∧ handle_admin_commands ORGANIZER_IDS shuffle py_int
      chat_id (lit "/start_event") user_id s
    = (Ok tt, mkState (last_update_id s) (user_data s) (santa_db s)
                      (outbox s ++ [(chat_id, NeedTwoText)]) (rng s)).
Proof.
  intros Horg Hn. split; [by apply start_santa_few|].
  as_organizer Horg.
  unfold bind at 1. rewrite start_santa_few by done.
  destruct (Nat.ltb_spec 1 (length (users (santa_db s)))); [lia|].
  reflexivity.
Qed.

Lemma show_assignment_run chat_id user_db_id s :
  show_assignment chat_id user_db_id s
  = (Ok tt, answered chat_id (assignment_view (santa_db s) user_db_id) s).
Proof.
  unfold show_assignment, assignment_view, recipient_of, bind, query.
  destruct (Sql.user_by_id user_db_id (santa_db s) ≫= santa_id) as [r|];
    [|done].
  by destruct (r =? 0).
Qed.

Lemma close_run chat_id user_id s :
  user_id ∈ ORGANIZER_IDS →
  handle_admin_commands ORGANIZER_IDS shuffle py_int
    chat_id (lit "/close") user_id s
  = (Ok tt, answered chat_id CloseDoneText
              (with_db (Sql.update_registration_open false (santa_db s)).2 s)).
Proof. intros Horg. by as_organizer Horg. Qed.

(** C8. /close from an organizer, twice in a row from any state: both runs
    end without an exception, registration is closed after each, each
    sends the same confirmation and nothing else, and the second run
    leaves both tables, the sessions and the cursor as the first left
    them. *)
Theorem close_registration_twice s chat_id user_id :
  user_id ∈ ORGANIZER_IDS →
  let close := handle_admin_commands ORGANIZER_IDS shuffle py_int
                 chat_id (lit "/close") user_id in
  let s1 := (close s).2 in
  let s2 := (close s1).2 in
  (close s).1 = Ok tt ∧ (close s1).1 = Ok tt
  ∧ is_registration_open s1 = (Ok false, s1)
  ∧ is_registration_open s2 = (Ok false, s2)
  ∧ outbox s1 = outbox s ++ [(chat_id, CloseDoneText)]
  ∧ outbox s2 = outbox s1 ++ [(chat_id, CloseDoneText)]
  ∧ users (santa_db s2) = users (santa_db s1)
  ∧ event_settings (santa_db s2) = event_settings (santa_db s1)
  ∧ user_data s2 = user_data s1
  ∧ last_update_id s2 = last_update_id s1.
Proof.
  intros Horg close s1 s2. unfold s2, s1, close.
  rewrite !close_run by done. simpl.
  unfold is_registration_open, query. simpl.
  destruct (event_settings (santa_db s)) as [es|]; simpl; split_and!; done.
Qed.

(** C5, as amended.  /start from a sender who has a row, or who has none
    while registration is closed, sends exactly one message and leaves the
    sessions (and everything but the outbox) as they were.  When the row
    exists and the event has started the message is the one of
    [show_assignment]: the assignment naming the receiver, with the
    preferences of the receiver's row, when the row of the sender's id
    holds a [santa_id] that is neither NULL nor 0, and the text that no
    draw has been held otherwise.  When the row exists and the event has
    not started it is the already-registered text with the internal id;
    when there is no row it is the registration-closed text. *)
Theorem handle_start_known_or_closed s chat_id user_id user_name :
  is_Some (Sql.user_by_telegram_id user_id (santa_db s))
  ∨ registration_opened (santa_db s) = false →
  ∃ reply,
    handle_start chat_id user_id user_name s
    = (Ok tt, answered chat_id reply s)
    ∧ user_data (handle_start chat_id user_id user_name s).2 = user_data s
    ∧ reply
      = match Sql.user_by_telegram_id user_id (santa_db s) with
        | Some row =>
            if event_has_started (santa_db s)
            then match Sql.user_by_id (db_id row) (santa_db s) ≫= santa_id with
                 | Some receiver_id =>
                     if receiver_id =? 0 then NoAssignmentText
                     else AssignmentText receiver_id
                            (from_option preferences not_specified
                               (Sql.user_by_id receiver_id (santa_db s)))
                 | None => NoAssignmentText
                 end
            else AlreadyRegisteredText (fio row) (db_id row)
        | None => RegistrationClosedText
        end.
Proof.
  intros H. unfold handle_start, is_event_started, is_registration_open,
    registration_opened, event_has_started, bind, query in *.
  destruct (Sql.user_by_telegram_id user_id (santa_db s)) as [row|].
  - destruct (from_option event_started false _); cbv beta iota.
    + rewrite show_assignment_run. by eexists.
    + by eexists.
  - destruct H as [[row Hrow]|H]; [discriminate|].
    rewrite H. by eexists.
Qed.

(** C10. /start from a sender who has a session, whatever its step and
    fields, but no row, while registration is open: the router hands the
    update to [handle_start], not to the step handler, and the session is
    replaced by a new one at the step "fio" holding no field; the welcome
    text goes out and nothing else changes. *)
Theorem start_replaces_session s update msg old :
  message update = Some msg →
  strip (default [] (text_of msg)) = lit "/start" →
  user_data s !! from_id msg = Some old →
  Sql.user_by_telegram_id (from_id msg) (santa_db s) = None →
  registration_opened (santa_db s) = true →
  dispatch ORGANIZER_IDS shuffle py_int update s
  = (Ok tt,
     mkState (last_update_id s)
             (<[from_id msg := mkSession StepFio None None]> (user_data s))
             (santa_db s)
             (outbox s ++ [(chat_id_of msg,
                            WelcomeText (default friend (first_name msg)))])
             (rng s))
  ∧ user_data (dispatch ORGANIZER_IDS shuffle py_int update s).2
      !! from_id msg
    = Some (mkSession StepFio None None).
Proof.
  intros Hm Ht Hold Hrow Hopen.
  assert (dispatch ORGANIZER_IDS shuffle py_int update s
          = handle_start (chat_id_of msg) (from_id msg)
              (default friend (first_name msg)) s) as ->.
  { unfold dispatch. rewrite Hm, Ht. literal_tests.
    change (existsb _ admin_tokens) with false. reflexivity. }
  unfold handle_start, is_registration_open, bind, query.
  unfold registration_opened in Hopen. rewrite Hrow, Hopen. simpl.
  split; [reflexivity|]. apply lookup_insert_eq.
Qed.

(** *** The cursor *)

Lemma keeps_ret {A} (a : A) : keeps_cursor (Rng:=Rng) (ret a).
Proof. by intros s. Qed.

Lemma keeps_raise {A} e : keeps_cursor (Rng:=Rng) (A:=A) (raise e).
Proof. by intros s. Qed.

Lemma keeps_bind {A B} (m : M Rng A) (k : A → M Rng B) :
  keeps_cursor m → (∀ a, keeps_cursor (k a)) → keeps_cursor (bind m k).
Proof.
  intros Hm Hk s. unfold bind. specialize (Hm s).
  destruct (m s) as [[a|e] s']; simpl in *; [|done].
  by rewrite Hk.
Qed.

Lemma keeps_query {A} (q : Database → A) : keeps_cursor (Rng:=Rng) (query q).
Proof. by intros s. Qed.

Lemma keeps_execute w : keeps_cursor (Rng:=Rng) (execute w).
Proof. by intros s. Qed.

Lemma keeps_send chat_id text :
  keeps_cursor (Rng:=Rng) (send_message chat_id text).
Proof. by intros s. Qed.

Lemma keeps_set_session user_id v :
  keeps_cursor (Rng:=Rng) (set_session user_id v).
Proof. by intros s. Qed.

Lemma keeps_del_session user_id :
  keeps_cursor (Rng:=Rng) (del_session user_id).
Proof. by intros s. Qed.

Lemma keeps_get_session user_id :
  keeps_cursor (Rng:=Rng) (get_session user_id).
Proof. by intros s. Qed.

Lemma keeps_insert_user t name group prefs :
  keeps_cursor (Rng:=Rng) (insert_user t name group prefs).
Proof.
  intros s. unfold insert_user.
  by destruct (Sql.insert_user _ _ _ _ _) as [[i d]|].
Qed.

Lemma keeps_random_shuffle l : keeps_cursor (random_shuffle shuffle l).
Proof. intros s. unfold random_shuffle. by destruct (shuffle _ _). Qed.

Lemma keeps_bind_param z : keeps_cursor (Rng:=Rng) (bind_param z).
Proof. intros s. unfold bind_param. by case_decide. Qed.

Lemma keeps_for_each {A} (l : list A) (body : A → M Rng unit) :
  (∀ x, keeps_cursor (body x)) → keeps_cursor (for_each l body).
Proof.
  intros Hb. induction l as [|x l IH]; simpl.
  - apply keeps_ret.
  - apply keeps_bind; [apply Hb|done].
Qed.

#[local] Hint Resolve keeps_ret keeps_raise keeps_query keeps_execute
  keeps_send keeps_set_session keeps_del_session keeps_get_session
  keeps_insert_user keeps_random_shuffle keeps_bind_param : cursor.

(** Walks through a method: binds, loops and the case distinctions of its
    body. *)
Ltac cursor :=
  repeat first
    [ progress auto with cursor
    | apply keeps_bind; [|intros ?]
    | apply keeps_for_each; intros ?
    | match goal with
      | |- keeps_cursor (if ?b then _ else _) => destruct b
      | |- keeps_cursor (match ?x with _ => _ end) => destruct x
      end ].

Lemma keeps_show_assignment chat_id user_db_id :
  keeps_cursor (Rng:=Rng) (show_assignment chat_id user_db_id).
Proof. intros s. by rewrite show_assignment_run. Qed.

#[local] Hint Resolve keeps_show_assignment : cursor.

Lemma keeps_handle_start chat_id user_id user_name :
  keeps_cursor (Rng:=Rng) (handle_start chat_id user_id user_name).
Proof.
  unfold handle_start, is_event_started, is_registration_open. cursor.
Qed.

Lemma keeps_start_santa : keeps_cursor (start_santa shuffle).
Proof. unfold start_santa. cursor. Qed.

Lemma keeps_handle_admin_commands chat_id text user_id :
  keeps_cursor
    (handle_admin_commands ORGANIZER_IDS shuffle py_int chat_id text user_id).
Proof.
  pose proof keeps_start_santa.
  unfold handle_admin_commands, close_registration, open_registration,
    notify_all_users, delete_user, mark_gift_delivered, mark_gift_received,
    notify_gift_delivered, get_all_users, is_event_started,
    is_registration_open.
  cursor.
Qed.

Lemma keeps_handle_message chat_id user_id user_name text :
  keeps_cursor (Rng:=Rng) (handle_message chat_id user_id user_name text).
Proof. unfold handle_message. cursor. Qed.

Lemma keeps_dispatch update :
  keeps_cursor (dispatch ORGANIZER_IDS shuffle py_int update).
Proof.
  pose proof keeps_handle_admin_commands.
  pose proof keeps_handle_start.
  pose proof keeps_handle_message.
  unfold dispatch. cursor.
Qed.

Lemma for_each_app {A} (l k : list A) (body : A → M Rng unit) s :
  for_each (l ++ k) body s = bind (for_each l body) (λ _, for_each k body) s.
Proof.
  revert s. induction l as [|x l IH]; intros s; simpl; [done|].
  unfold bind. destruct (body x s) as [[[]|e] s']; [|done].
  apply IH.
Qed.

(** C6. A poll asks for the updates from [last_update_id + 1] on.  In a
    batch, once the updates before [update] have been processed, leaving
    [s1], the run goes on by routing [update] in [s1] with the cursor
    already at the id of [update], and then processes the rest in order.
    No handler moves the cursor, so it is still the id of [update] when
    its routing ends, with or without an exception, and the poll after a
    batch that ends with [update] asks for the ids above it. *)
Theorem cursor_advances_before_dispatch s before update after s1 :
  process_updates ORGANIZER_IDS shuffle py_int before s = (Ok tt, s1) →
  offset (get_updates_params s) = last_update_id s + 1
  ∧ process_updates ORGANIZER_IDS shuffle py_int (before ++ update :: after) s
    = bind (dispatch ORGANIZER_IDS shuffle py_int update)
           (λ _, process_updates ORGANIZER_IDS shuffle py_int after)
           (with_cursor (update_id update) s1)
  ∧ last_update_id
      (dispatch ORGANIZER_IDS shuffle py_int update
         (with_cursor (update_id update) s1)).2
    = update_id update
  ∧ (∀ s2,
       process_updates ORGANIZER_IDS shuffle py_int (before ++ [update]) s
       = (Ok tt, s2) →
       offset (get_updates_params s2) = update_id update + 1).
Proof.
  intros Hbefore.
  assert (∀ rest,
    process_updates ORGANIZER_IDS shuffle py_int (before ++ update :: rest) s
    = bind (dispatch ORGANIZER_IDS shuffle py_int update)
           (λ _, process_updates ORGANIZER_IDS shuffle py_int rest)
           (with_cursor (update_id update) s1)) as Hstep.
  { intros rest. unfold process_updates in *. rewrite for_each_app.
    unfold bind at 1. rewrite Hbefore. reflexivity. }
  pose proof (keeps_dispatch update (with_cursor (update_id update) s1)) as Hk.
  split_and!; [done|apply Hstep|done|].
  intros s2. rewrite Hstep. unfold bind. simpl in Hk.
  destruct (dispatch _ _ _ _ _) as [[[]|e] s']; [|done].
  simpl. intros [= <-]. simpl in Hk. by rewrite Hk.
Qed.

(** *** Marking a delivery *)

Lemma rowcount_unknown i d :
  i ∉ Sql.ids d → Sql.rowcount i (users d) = 0%nat.
Proof.
  unfold Sql.ids, Sql.rowcount. induction (users d) as [|u rows IH]; [done|].
  rewrite fmap_cons, not_elem_of_cons. intros [Hu Hrows].
  rewrite filter_cons, decide_False by done. by apply IH.
Qed.

Lemma update_where_id_unknown f i d :
  i ∉ Sql.ids d → Sql.update_where_id f i (users d) = users d.
Proof.
  unfold Sql.ids, Sql.update_where_id.
  induction (users d) as [|u rows IH]; [done|].
  rewrite !fmap_cons, not_elem_of_cons. intros [Hu Hrows].
  rewrite decide_False by done. f_equal. by apply IH.
Qed.

Lemma mark_gift_delivered_run n s :
  sqlite_int n →
  mark_gift_delivered n s
  = (Ok (0 <? Sql.rowcount n (users (santa_db s)))%nat,
     with_db (Sql.update_gift_delivered n (santa_db s)).2 s).
Proof.
  intros Hn. unfold mark_gift_delivered, bind_param, bind.
  by rewrite decide_True.
Qed.

(** X22. /gift from an organizer with a number of 64 bits that is the id
    of no row: [mark_gift_delivered] answers false, the organizer is sent
    the not-found text and nobody else is sent anything, and both tables
    are as they were. *)
Theorem gift_for_unknown_id s chat_id text user_id n :
  user_id ∈ ORGANIZER_IDS →
  startswith text (lit "/gift ") = true →
  numeric_argument py_int text = Some n →
  sqlite_int n →
  n ∉ Sql.ids (santa_db s) →
  let run := handle_admin_commands ORGANIZER_IDS shuffle py_int
               chat_id text user_id s in
  (mark_gift_delivered n s).1 = Ok false
  ∧ run.1 = Ok tt
  ∧ outbox run.2 = outbox s ++ [(chat_id, UserNotFoundText)]
  ∧ users (santa_db run.2) = users (santa_db s)
  ∧ event_settings (santa_db run.2) = event_settings (santa_db s)
  ∧ user_data run.2 = user_data s
  ∧ last_update_id run.2 = last_update_id s.
Proof.
  intros Horg Hpre Harg Hn Hnew run.
  assert (run = (Ok tt, answered chat_id UserNotFoundText
                   (with_db (Sql.update_gift_delivered n (santa_db s)).2 s)))
    as ->.
  { unfold run. apply bool_decide_eq_true in Hpre as [rest ->].
    unfold handle_admin_commands.
    rewrite (bool_decide_true _ Horg). change (negb true) with false.
    cbv iota. prefixed_tests rest. cbv iota. rewrite Harg.
    unfold bind at 1. rewrite mark_gift_delivered_run by done.
    by rewrite rowcount_unknown. }
  rewrite mark_gift_delivered_run by done. rewrite rowcount_unknown by done.
  simpl. rewrite update_where_id_unknown by done. done.
Qed.

Lemma notify_gift_delivered_run n s :
  sqlite_int n →
  notify_gift_delivered n s
  = (Ok tt,
     match Sql.giver_of n (santa_db s), Sql.user_by_id n (santa_db s) with
     | Some _, Some row => answered (telegram_id row) GiftDeliveredNotice s
     | _, _ => s
     end).
Proof.
  intros Hn. unfold notify_gift_delivered, bind_param, bind, query.
  rewrite decide_True by done. unfold ret at 1.
  destruct (Sql.giver_of n (santa_db s)); [|done].
  by destruct (Sql.user_by_id n (santa_db s)).
Qed.

(** What /gift does with the id of a row: the flag of that row is set, the
    organizer is told so, and the delivery notice, when some row has the
    id as its [santa_id], goes to the external id of the row named in the
    command. *)
Lemma gift_for_known_id s chat_id text user_id n :
  user_id ∈ ORGANIZER_IDS →
  startswith text (lit "/gift ") = true →
  numeric_argument py_int text = Some n →
  sqlite_int n →
  n ∈ Sql.ids (santa_db s) →
  let d' := (Sql.update_gift_delivered n (santa_db s)).2 in
  handle_admin_commands ORGANIZER_IDS shuffle py_int chat_id text user_id s
  = (Ok tt,
     let s' := answered chat_id (GiftMarkedText n) (with_db d' s) in
     match Sql.giver_of n d', Sql.user_by_id n d' with
     | Some _, Some row => answered (telegram_id row) GiftDeliveredNotice s'
     | _, _ => s'
     end).
Proof.
  intros Horg Hpre Harg Hn Hknown d'.
  apply bool_decide_eq_true in Hpre as [rest ->].
  unfold handle_admin_commands.
  rewrite (bool_decide_true _ Horg). change (negb true) with false.
  cbv iota. prefixed_tests rest. cbv iota. rewrite Harg.
  unfold bind at 1. rewrite mark_gift_delivered_run by done.
  assert ((0 <? Sql.rowcount n (users (santa_db s)))%nat = true) as ->.
  { apply Nat.ltb_lt. unfold Sql.rowcount, Sql.ids in *.
    apply list_elem_of_fmap in Hknown as (u & -> & Hu).
    assert (u ∈ filter (λ v, db_id v = db_id u) (users (santa_db s))) as Hin
      by (by apply list_elem_of_filter).
    destruct (filter _ _); [by apply elem_of_nil in Hin|simpl; lia]. }
  unfold bind, send_message. fold d'.
  by rewrite notify_gift_delivered_run.
Qed.

(** *** Arguments that are not numbers *)

(** Behind "/del ", "/gift " or "/received ", a text whose second word is
    missing or is no numeral gets the usage text of its command, and
    nothing else happens. *)
Lemma malformed_argument_usage s chat_id text user_id :
  user_id ∈ ORGANIZER_IDS →
  numeric_argument py_int text = None →
  (startswith text (lit "/del ") = true →
   handle_admin_commands ORGANIZER_IDS shuffle py_int chat_id text user_id s
   = (Ok tt, answered chat_id DelUsageText s))
  ∧ (startswith text (lit "/gift ") = true →
     handle_admin_commands ORGANIZER_IDS shuffle py_int chat_id text user_id s
     = (Ok tt, answered chat_id GiftUsageText s))
  ∧ (startswith text (lit "/received ") = true →
     handle_admin_commands ORGANIZER_IDS shuffle py_int chat_id text user_id s
     = (Ok tt, answered chat_id ReceivedUsageText s)).
Proof.
  intros Horg Harg.
  split_and!; intros Hpre; apply bool_decide_eq_true in Hpre as [rest ->];
    unfold handle_admin_commands;
    rewrite (bool_decide_true _ Horg); change (negb true) with false;
    cbv iota; prefixed_tests rest; cbv iota; by rewrite Harg.
Qed.

End Properties.

(** ** The two commands that miss what their own text says *)

(** C2, evaluated.  Alice (1) gives to Bob (2), whose external id is 102.
    /gift 1 sets Alice's flag and confirms to the organizer that the gift
    from 1 is marked; the notice that a gift has been delivered then goes to
    101, Alice herself, and nothing goes to 102. *)
Theorem gift_notice_goes_to_the_giver :
  let run := handle_admin_commands organizers reversing ascii_int
               100 (lit "/gift 1") 100 (fresh assigned) in
  recipient_of assigned 1 = Some 2
  ∧ telegram_id <$> Sql.user_by_id 2 assigned = Some 102
  ∧ run.1 = Ok tt
  ∧ gift_delivered <$> Sql.user_by_id 1 (santa_db run.2) = Some true
  ∧ outbox run.2 = [(100, GiftMarkedText 1); (101, GiftDeliveredNotice)]
  ∧ (102, GiftDeliveredNotice) ∉ outbox run.2.
Proof.
  split_and!; try reflexivity.
  vm_compute. intros H. repeat (apply elem_of_cons in H as [[=]|H]).
  by apply elem_of_nil in H.
Qed.

(** C7, evaluated.  The number 99999999999999999999 is the id of no row,
    and /gift with it from an organizer does not get the not-found text:
    sqlite3 refuses to bind a number beyond 64 bits, the OverflowError is
    caught by no handler, nothing is sent, and the batch ends there with
    the cursor on that update, so the answer of Dana that follows it in
    the batch is not processed. *)
Theorem gift_for_unknown_large_id_raises :
  let n := 99999999999999999999 in
  let run := handle_admin_commands organizers reversing ascii_int
               100 (lit "/gift 99999999999999999999") 100
               (fresh registered) in
  let batch := process_updates organizers reversing ascii_int
                 [too_large; says 45 7 "tea"] waiting in
  (n ∉ Sql.ids registered)
  ∧ numeric_argument ascii_int (lit "/gift 99999999999999999999") = Some n
  ∧ run = (Raise OverflowError, fresh registered)
  ∧ ((100, UserNotFoundText) ∉ outbox run.2)
  ∧ batch = (Raise OverflowError, with_cursor 44 waiting).
Proof.
  split_and!; try reflexivity.
  - apply (bool_decide_unpack _). vm_compute. exact I.
  - vm_compute. by intros ?%elem_of_nil.
Qed.

(** C3, evaluated.  The bare tokens /del, /gift and /received from an
    organizer pass the router's test for an admin command and then match
    no branch of the handler: no message is sent, nothing changes. *)
Theorem bare_token_is_silent {Rng} shuffle py_int (s : State Rng)
    chat_id i name :
  let routed text :=
    dispatch organizers shuffle py_int
      (mkUpdate i (Some (mkMessage chat_id 100 name (Some (lit text))))) s in
  routed "/del"%string = (Ok tt, s)
  ∧ routed "/gift"%string = (Ok tt, s)
  ∧ routed "/received"%string = (Ok tt, s)
  ∧ handle_admin_commands organizers shuffle py_int chat_id (lit "/del") 100 s
    = (Ok tt, s).
Proof.
  intros routed.
  assert (100 ∈ organizers) as Horg by (by left).
  assert (∀ text,
    text ∈ ["/del"; "/gift"; "/received"]%string →
    handle_admin_commands organizers shuffle py_int chat_id (lit text) 100 s
    = (Ok tt, s)) as Hsilent.
  { intros text Ht.
    repeat (apply elem_of_cons in Ht as [->|Ht]);
      [by as_organizer Horg..|by apply elem_of_nil in Ht]. }
  split_and!; [..|apply Hsilent; by left].
  - change (routed "/del"%string)
      with (handle_admin_commands organizers shuffle py_int
              chat_id (lit "/del") 100 s).
    apply Hsilent. by left.
  - change (routed "/gift"%string)
      with (handle_admin_commands organizers shuffle py_int
              chat_id (lit "/gift") 100 s).
    apply Hsilent. right. by left.
  - change (routed "/received"%string)
      with (handle_admin_commands organizers shuffle py_int
              chat_id (lit "/received") 100 s).
    apply Hsilent. right. right. by left.
Qed.

(** A number that does not fit 64 bits is refused by sqlite3 when it is
    bound; no handler catches that, so no message is sent either. *)
Example gift_out_of_range :
  handle_admin_commands organizers reversing ascii_int
    100 (lit "/gift 99999999999999999999") 100 (fresh registered)
  = (Raise OverflowError, fresh registered).
Proof. reflexivity. Qed.

(** While "/gift x" is answered with the usage text. *)
Example gift_not_a_number :
  handle_admin_commands organizers reversing ascii_int
    100 (lit "/gift x") 100 (fresh registered)
  = (Ok tt, answered 100 GiftUsageText (fresh registered)).
Proof. reflexivity. Qed.

(** ** The properties on the sample data *)

(** The draw over the order [2; 3; 1]: 2 gives to 3, 3 to 1 and 1 to 2, the
    event has started, and each of the three is sent the view of their own
    receiver. *)
Example draw_in_fixed_order :
  let run := handle_admin_commands organizers (λ g _, ([2; 3; 1], g)) ascii_int
               100 (lit "/start_event") 100 (fresh registered) in
  (λ u, (db_id u, santa_id u)) <$> users (santa_db run.2)
  = [(1, Some 2); (2, Some 3); (3, Some 1)]
  ∧ event_has_started (santa_db run.2) = true
  ∧ outbox run.2
    = [(100, DrawDoneText 3);
       (101, AssignmentText 2 (lit "books"));
       (102, AssignmentText 3 (lit "socks"));
       (103, AssignmentText 1 (lit "tea"))].
Proof. split_and!; reflexivity. Qed.


Lemma start_santa_single_cycle_witness :
  NoDup (Sql.ids registered)
  ∧ (2 ≤ length (users registered))%nat
  ∧ shuffled reversing (fresh registered) ≡ₚ Sql.ids registered
  ∧ (start_santa reversing (fresh registered)).1 = Ok 3%nat
  ∧ (∀ a b, a ∈ [1; 2; 3] → b ∈ [1; 2; 3] →
       ∃ k, (k < 3)%nat
            ∧ follow (santa_db (start_santa reversing (fresh registered)).2)
                     k a = Some b).
Proof.
  assert (NoDup (Sql.ids registered)) as H1
    by (apply (bool_decide_unpack _); vm_compute; exact I).
  assert (2 ≤ length (users registered))%nat as H2 by (simpl; lia).
  assert (shuffled reversing (fresh registered) ≡ₚ Sql.ids registered) as H3
    by (apply (bool_decide_unpack _); vm_compute; exact I).
  pose proof (start_santa_single_cycle reversing (fresh registered) H1 H2 H3)
    as (Hn & _ & _ & _ & _ & Hcycle & _).
  split_and!; [exact H1|exact H2|exact H3|exact Hn|exact Hcycle].
Defined.

Lemma start_santa_again_overwrites_witness :
  NoDup (Sql.ids assigned)
  ∧ (2 ≤ length (users assigned))%nat
  ∧ shuffled reversing (fresh assigned) ≡ₚ Sql.ids assigned
  ∧ profile <$> users (santa_db (start_santa reversing (fresh assigned)).2)
    = profile <$> users assigned.
Proof.
  assert (NoDup (Sql.ids assigned)) as H1
    by (apply (bool_decide_unpack _); vm_compute; exact I).
  assert (2 ≤ length (users assigned))%nat as H2 by (simpl; lia).
  assert (shuffled reversing (fresh assigned) ≡ₚ Sql.ids assigned) as H3
    by (apply (bool_decide_unpack _); vm_compute; exact I).
  pose proof (start_santa_again_overwrites reversing (fresh assigned) H1 H2 H3)
    as (Hp & _ & _).
  split_and!; [exact H1|exact H2|exact H3|exact Hp].
Defined.

Lemma start_event_needs_two_witness :
  100 ∈ organizers
  ∧ (length (users lonely) < 2)%nat
  ∧ start_santa reversing (fresh lonely) = (Ok 1%nat, fresh lonely)
  ∧ handle_admin_commands organizers reversing ascii_int
      100 (lit "/start_event") 100 (fresh lonely)
    = (Ok tt, answered 100 NeedTwoText (fresh lonely)).
Proof.
  assert (100 ∈ organizers) as H1 by (vm_compute; left).
  assert (length (users lonely) < 2)%nat as H2 by (simpl; lia).
  pose proof (start_event_needs_two organizers reversing ascii_int
                (fresh lonely) 100 100 H1 H2) as [Ha Hb].
  split_and!; [exact H1|exact H2|exact Ha|exact Hb].
Defined.

Lemma handle_start_known_or_closed_witness :
  (is_Some (Sql.user_by_telegram_id 101 assigned)
   ∨ registration_opened assigned = false)
  ∧ ∃ reply,
      handle_start 101 101 (lit "Alice") (fresh assigned)
      = (Ok tt, answered 101 reply (fresh assigned))
      ∧ user_data (handle_start 101 101 (lit "Alice") (fresh assigned)).2 = ∅
      ∧ reply = AssignmentText 2 (lit "books").
Proof.
  assert (is_Some (Sql.user_by_telegram_id 101 assigned)
          ∨ registration_opened assigned = false) as H1
    by (right; reflexivity).
  split; [exact H1|].
  exact (handle_start_known_or_closed (fresh assigned) 101 101
           (lit "Alice") H1).
Defined.

(** The claim as it was written fails for a participant who registers
    after the draw.  From the three registered participants, an organizer
    sends /start_event and then Dana goes through the dialogue; her row
    has no [santa_id].  Her next /start finds her row and the event
    started, and is answered with the text that no draw has been held: no
    assignment is shown. *)
Lemma start_after_draw_shows_no_assignment :
  let s := (process_updates organizers reversing ascii_int
              (says 1 100 "/start_event" :: dialogue) (fresh registered)).2 in
  is_Some (Sql.user_by_telegram_id 7 (santa_db s))
  ∧ event_has_started (santa_db s) = true
  ∧ handle_start 7 7 (lit "Dana") s = (Ok tt, answered 7 NoAssignmentText s)
  ∧ ¬ (∀ (s : State unit) chat_id user_id user_name,
         is_Some (Sql.user_by_telegram_id user_id (santa_db s)) →
         event_has_started (santa_db s) = true →
         ∃ receiver_id prefs,
           handle_start chat_id user_id user_name s
           = (Ok tt, answered chat_id (AssignmentText receiver_id prefs) s)).
Proof.
  intros s. vm_compute in s.
  assert (is_Some (Sql.user_by_telegram_id 7 (santa_db s))) as H1
    by (vm_compute; by eexists).
  assert (event_has_started (santa_db s) = true) as H2
    by (vm_compute; reflexivity).
  assert (handle_start 7 7 (lit "Dana") s
          = (Ok tt, answered 7 NoAssignmentText s)) as H3
    by (vm_compute; reflexivity).
  split_and!; [exact H1|exact H2|exact H3|].
  intros H. destruct (H s 7 7 (lit "Dana") H1 H2) as (r & prefs & E).
  rewrite H3 in E. apply (f_equal (λ x, outbox x.2)) in E.
  vm_compute in E. discriminate E.
Qed.

Lemma cursor_advances_before_dispatch_witness :
  let run := process_updates organizers reversing ascii_int in
  run [says 42 7 "B-2"] midway = (Ok tt, (run [says 42 7 "B-2"] midway).2)
  ∧ offset (get_updates_params midway) = 42
  ∧ last_update_id
      (dispatch organizers reversing ascii_int (says 43 100 "/gift 9")
         (with_cursor 43 (run [says 42 7 "B-2"] midway).2)).2 = 43
  ∧ (∀ s2, run ([says 42 7 "B-2"] ++ [says 43 100 "/gift 9"]) midway
           = (Ok tt, s2) →
           offset (get_updates_params s2) = 44).
Proof.
  intros run.
  assert (run [says 42 7 "B-2"] midway
          = (Ok tt, (run [says 42 7 "B-2"] midway).2)) as H1 by reflexivity.
  pose proof (cursor_advances_before_dispatch organizers reversing ascii_int
                midway [says 42 7 "B-2"] (says 43 100 "/gift 9") [] _ H1)
    as (Ha & _ & Hc & Hd).
  split_and!; [exact H1|exact Ha|exact Hc|exact Hd].
Defined.

Lemma gift_for_unknown_id_witness :
  100 ∈ organizers
  ∧ startswith (lit "/gift 9") (lit "/gift ") = true
  ∧ numeric_argument ascii_int (lit "/gift 9") = Some 9
  ∧ sqlite_int 9
  ∧ (9 ∉ Sql.ids registered)
  ∧ outbox (handle_admin_commands organizers reversing ascii_int
              100 (lit "/gift 9") 100 (fresh registered)).2
    = [(100, UserNotFoundText)]
  ∧ users (santa_db (handle_admin_commands organizers reversing ascii_int
                       100 (lit "/gift 9") 100 (fresh registered)).2)
    = users registered.
Proof.
  assert (100 ∈ organizers) as H1 by (vm_compute; left).
  assert (startswith (lit "/gift 9") (lit "/gift ") = true) as H2
    by reflexivity.
  assert (numeric_argument ascii_int (lit "/gift 9") = Some 9) as H3
    by reflexivity.
  assert (sqlite_int 9) as H4 by (unfold sqlite_int; lia).
  assert (9 ∉ Sql.ids registered) as H5
    by (apply (bool_decide_unpack _); vm_compute; exact I).
  pose proof (gift_for_unknown_id organizers reversing ascii_int
                (fresh registered) 100 (lit "/gift 9") 100 9 H1 H2 H3 H4 H5)
    as (_ & _ & Hout & Hrows & _).
  split_and!; [exact H1|exact H2|exact H3|exact H4|exact H5|exact Hout
              |exact Hrows].
Defined.

Lemma close_registration_twice_witness :
  let close := handle_admin_commands organizers reversing ascii_int
                 100 (lit "/close") 100 in
  100 ∈ organizers
  ∧ (is_registration_open (close (fresh registered)).2).1 = Ok false
  ∧ (is_registration_open (close (close (fresh registered)).2).2).1
    = Ok false
  ∧ outbox (close (close (fresh registered)).2).2
    = [(100, CloseDoneText); (100, CloseDoneText)].
Proof.
  intros close.
  assert (100 ∈ organizers) as H1 by (vm_compute; left).
  pose proof (close_registration_twice organizers reversing ascii_int
                (fresh registered) 100 100 H1)
    as (_ & _ & Ha & Hb & _ & Hc & _).
  split_and!; [exact H1|exact (f_equal fst Ha)|exact (f_equal fst Hb)
              |exact Hc].
Defined.

Lemma start_replaces_session_witness :
  message (says 42 7 " /start ") = Some (mkMessage 7 7 (Some (lit "Dana"))
                                           (Some (lit " /start ")))
  ∧ strip (lit " /start ") = lit "/start"
  ∧ user_data midway !! 7
    = Some (mkSession StepGroup (Some (lit "Dana")) None)
  ∧ Sql.user_by_telegram_id 7 registered = None
  ∧ registration_opened registered = true
  ∧ user_data (dispatch organizers reversing ascii_int
                 (says 42 7 " /start ") midway).2 !! 7
    = Some (mkSession StepFio None None).
Proof.
  assert (message (says 42 7 " /start ")
          = Some (mkMessage 7 7 (Some (lit "Dana")) (Some (lit " /start "))))
    as H1 by reflexivity.
  assert (strip (lit " /start ") = lit "/start") as H2 by reflexivity.
  assert (user_data midway !! 7
          = Some (mkSession StepGroup (Some (lit "Dana")) None)) as H3
    by reflexivity.
  assert (Sql.user_by_telegram_id 7 registered = None) as H4 by reflexivity.
  assert (registration_opened registered = true) as H5 by reflexivity.
  pose proof (start_replaces_session organizers reversing ascii_int midway
                (says 42 7 " /start ") _ _ H1 H2 H3 H4 H5) as [_ Hb].
  split_and!; [exact H1|exact H2|exact H3|exact H4|exact H5|exact Hb].
Defined.

(** ** Runs as sequences of single effects *)

Section Respect.

Context {Rng : Type} (R : State Rng → State Rng → Prop).
Context `{!Reflexive R, !Transitive R}.

Lemma respects_ret {A} (a : A) : respects R (ret a).
Proof. intros s. reflexivity. Qed.

Lemma respects_raise {A} e : respects R (A:=A) (raise e).
Proof. intros s. reflexivity. Qed.

Lemma respects_query {A} (q : Database → A) : respects R (query q).
Proof. intros s. reflexivity. Qed.

Lemma respects_get_session user_id : respects R (get_session user_id).
Proof. intros s. reflexivity. Qed.

Lemma respects_bind_param z : respects R (bind_param z).
Proof. intros s. unfold bind_param. case_decide; reflexivity. Qed.

Lemma respects_bind {A B} (m : M Rng A) (k : A → M Rng B) :
  respects R m → (∀ a, respects R (k a)) → respects R (bind m k).
Proof.
  intros Hm Hk s. unfold bind. specialize (Hm s).
  destruct (m s) as [[a|e] s']; simpl in *; [|done].
  etrans; [exact Hm|apply Hk].
Qed.

Lemma respects_for_each {A} (l : list A) (body : A → M Rng unit) :
  (∀ x, respects R (body x)) → respects R (for_each l body).
Proof.
  intros Hb. induction l as [|x l IH]; simpl.
  - apply respects_ret.
  - apply respects_bind; [apply Hb|done].
Qed.

End Respect.

Create HintDb effects.

#[global] Hint Resolve respects_ret respects_raise respects_query
  respects_get_session respects_bind_param : effects.

(** Walks through a method, as far as the hints know its effects. *)
Ltac effects :=
  repeat first
    [ progress eauto with effects typeclass_instances
    | apply respects_bind; [apply _..| |intros ?]
    | apply respects_for_each; [apply _..|intros ?]
    | match goal with
      | |- respects _ (if ?b then _ else _) => destruct b
      | |- respects _ (match ?x with _ => _ end) => destruct x
      end ].

Section Effects.

Context {Rng : Type}.
Variable ORGANIZER_IDS : list Z.
Variable shuffle : Rng → list Z → list Z * Rng.
Variable py_int : str → option Z.
Implicit Types s : State Rng.

Lemma admin_send chat_id text :
  respects (rtc admin_step) (send_message (Rng:=Rng) chat_id text).
Proof. intros s. apply rtc_once, admin_sends. Qed.

Lemma admin_execute st w :
  is_insert st = false →
  (∀ d, (w d).2 = run_stmt st d) →
  respects (rtc admin_step) (execute (Rng:=Rng) w).
Proof.
  intros Hst Hw s. unfold execute. simpl. rewrite Hw.
  apply rtc_once. by apply admin_writes.
Qed.

Lemma admin_shuffle l :
  respects (rtc admin_step) (random_shuffle shuffle l).
Proof.
  intros s. unfold random_shuffle. destruct (shuffle _ _) as [l' g].
  apply rtc_once, admin_draws.
Qed.

Lemma admin_show_assignment chat_id user_db_id :
  respects (rtc admin_step) (show_assignment (Rng:=Rng) chat_id user_db_id).
Proof.
  intros s. rewrite show_assignment_run. apply rtc_once, admin_sends.
Qed.

Lemma admin_run chat_id text user_id s :
  rtc admin_step s
    (handle_admin_commands ORGANIZER_IDS shuffle py_int
       chat_id text user_id s).2.
Proof.
  revert s. change (respects (rtc admin_step)
    (handle_admin_commands ORGANIZER_IDS shuffle py_int chat_id text user_id)).
  pose proof admin_send. pose proof admin_shuffle.
  pose proof admin_show_assignment.
  assert (∀ b, respects (rtc admin_step)
                 (execute (Rng:=Rng) (Sql.update_registration_open b)))
    by (intros b; by apply (admin_execute (UpdateRegistrationOpen b))).
  assert (respects (rtc admin_step)
            (execute (Rng:=Rng) Sql.update_event_started))
    by (by apply (admin_execute UpdateEventStarted)).
  assert (∀ r g, respects (rtc admin_step)
                   (execute (Rng:=Rng) (Sql.update_santa_id r g)))
    by (intros r g; by apply (admin_execute (UpdateSantaId r g))).
  assert (∀ i, respects (rtc admin_step)
                 (execute (Rng:=Rng) (Sql.update_gift_delivered i)))
    by (intros i; by apply (admin_execute (UpdateGiftDelivered i))).
  assert (∀ i, respects (rtc admin_step)
                 (execute (Rng:=Rng) (Sql.update_gift_received i)))
    by (intros i; by apply (admin_execute (UpdateGiftReceived i))).
  assert (∀ i, respects (rtc admin_step)
                 (execute (Rng:=Rng) (Sql.delete_where_id i)))
    by (intros i; by apply (admin_execute (DeleteUser i))).
  unfold handle_admin_commands, close_registration, open_registration,
    start_santa, notify_all_users, delete_user, mark_gift_delivered,
    mark_gift_received, notify_gift_delivered, get_all_users,
    is_event_started, is_registration_open.
  effects.
Qed.

Lemma admin_step_bot_step s s' : rtc admin_step s s' → rtc bot_step s s'.
Proof. apply rtc_subrel. intros ? ?. apply bot_admin. Qed.

Lemma bot_send chat_id text :
  respects (rtc bot_step) (send_message (Rng:=Rng) chat_id text).
Proof. intros s. apply rtc_once, bot_admin, admin_sends. Qed.

Lemma bot_show_assignment chat_id user_db_id :
  respects (rtc bot_step) (show_assignment (Rng:=Rng) chat_id user_db_id).
Proof. intros s. apply admin_step_bot_step, admin_show_assignment. Qed.

Lemma bot_set_session user_id v :
  respects (rtc bot_step) (set_session (Rng:=Rng) user_id v).
Proof. intros s. apply rtc_once, bot_sets_session. Qed.

Lemma bot_del_session user_id :
  respects (rtc bot_step) (del_session (Rng:=Rng) user_id).
Proof. intros s. apply rtc_once, bot_drops_session. Qed.

Lemma bot_insert_user t name group prefs :
  respects (rtc bot_step) (insert_user (Rng:=Rng) t name group prefs).
Proof.
  intros s. apply rtc_once.
  pose proof (bot_registers t name group prefs s) as H.
  unfold insert_user, run_stmt, with_db in *.
  destruct (Sql.insert_user t name group prefs (santa_db s)) as [[i d]|];
    [done|]. by rewrite state_eta in H.
Qed.

Lemma bot_set_last_update_id i :
  respects (rtc bot_step) (set_last_update_id (Rng:=Rng) i).
Proof. intros s. apply rtc_once, bot_moves_cursor. Qed.

Lemma start_run chat_id user_id user_name s :
  rtc bot_step s (handle_start chat_id user_id user_name s).2.
Proof.
  revert s.
  change (respects (rtc bot_step)
            (handle_start (Rng:=Rng) chat_id user_id user_name)).
  pose proof bot_send. pose proof bot_show_assignment.
  pose proof bot_set_session.
  unfold handle_start, is_event_started, is_registration_open. effects.
Qed.

Lemma message_run chat_id user_id user_name text s :
  rtc bot_step s (handle_message chat_id user_id user_name text s).2.
Proof.
  revert s.
  change (respects (rtc bot_step)
            (handle_message (Rng:=Rng) chat_id user_id user_name text)).
  pose proof bot_send. pose proof bot_set_session. pose proof bot_del_session.
  pose proof bot_insert_user.
  unfold handle_message. effects.
Qed.

Lemma dispatch_run update s :
  rtc bot_step s (dispatch ORGANIZER_IDS shuffle py_int update s).2.
Proof.
  unfold dispatch. destruct (message update) as [m|]; [|done].
  destruct (_ && _).
  - apply admin_step_bot_step, admin_run.
  - case_bool_decide; [apply start_run|].
    case_bool_decide; [apply bot_send|apply message_run].
Qed.

Lemma process_updates_run updates s :
  rtc bot_step s (process_updates ORGANIZER_IDS shuffle py_int updates s).2.
Proof.
  revert s.
  change (respects (rtc bot_step)
            (process_updates ORGANIZER_IDS shuffle py_int updates)).
  unfold process_updates. apply respects_for_each; [apply _..|].
  intros update. apply respects_bind; [apply _..| |].
  - apply bot_set_last_update_id.
  - intros _ s. apply dispatch_run.
Qed.

(** An invariant of the file that every statement keeps is kept by every
    run of the loop, however the run ends. *)
Lemma admin_step_santa_db s s' :
  admin_step s s' →
  santa_db s' = santa_db s
  ∨ ∃ st, is_insert st = false ∧ santa_db s' = run_stmt st (santa_db s).
Proof. intros [c m ?|st ? Hst|g ?]; [by left|right; by exists st|by left]. Qed.

Lemma bot_step_santa_db s s' :
  bot_step s s' →
  santa_db s' = santa_db s ∨ ∃ st, santa_db s' = run_stmt st (santa_db s).
Proof.
  intros [? ? H|t n g p ?| | |]; [|right; by eexists|by left..].
  destruct (admin_step_santa_db _ _ H) as [|[st [_ ?]]];
    [by left|right; by exists st].
Qed.

Lemma bot_invariant (I : Database → Prop) s s' :
  (∀ st d, I d → I (run_stmt st d)) →
  rtc bot_step s s' → I (santa_db s) → I (santa_db s').
Proof.
  intros HI Hrun. induction Hrun as [|s1 s2 s3 H12 _ IH]; [done|].
  intros H1. apply IH.
  destruct (bot_step_santa_db _ _ H12) as [->|[st ->]]; [done|by apply HI].
Qed.

Lemma admin_invariant (I : Database → Prop) s s' :
  (∀ st d, is_insert st = false → I d → I (run_stmt st d)) →
  rtc admin_step s s' → I (santa_db s) → I (santa_db s').
Proof.
  intros HI Hrun. induction Hrun as [|s1 s2 s3 H12 _ IH]; [done|].
  intros H1. apply IH.
  destruct (admin_step_santa_db _ _ H12) as [->|[st [Hst ->]]];
    [done|by apply HI].
Qed.

Lemma admin_step_user_data s s' :
  rtc admin_step s s' →
  user_data s' = user_data s ∧ last_update_id s' = last_update_id s.
Proof.
  induction 1 as [|s1 s2 s3 H12 _ [IH1 IH2]]; [done|].
  rewrite IH1, IH2. by destruct H12.
Qed.

End Effects.

(** ** What a statement does to the rows *)

Lemma max_bound (a : Z) (l : list Z) :
  a ≤ foldr Z.max a l ∧ ∀ x, x ∈ l → x ≤ foldr Z.max a l.
Proof.
  induction l as [|y l [IHa IHl]]; simpl.
  - split; [lia|]. intros x Hx. by apply elem_of_nil in Hx.
  - split; [lia|]. intros x [->|Hx]%elem_of_cons; [lia|].
    specialize (IHl x Hx). lia.
Qed.

Lemma next_rowid_above d :
  sequence d < Sql.next_rowid d ∧ ∀ i, i ∈ Sql.ids d → i < Sql.next_rowid d.
Proof.
  unfold Sql.next_rowid.
  destruct (max_bound (sequence d) (Sql.ids d)) as [Ha Hl].
  split; [lia|]. intros i Hi. specialize (Hl i Hi). lia.
Qed.

Lemma user_by_telegram_id_None t d :
  Sql.user_by_telegram_id t d = None ↔ t ∉ telegram_ids d.
Proof.
  unfold Sql.user_by_telegram_id, telegram_ids.
  rewrite fmap_None, list_find_None, Forall_forall, list_elem_of_fmap.
  split.
  - intros H (u & -> & Hu). by apply (H u).
  - intros H u Hu E. apply H. by exists u.
Qed.

(** A statement rewrites columns of rows in place, keeping id and external
    id and never clearing a flag; or removes the rows of one id; or, the
    accepted INSERT, appends a row with the next rowid, unset flags and an
    external id that no row had. *)
Lemma run_stmt_rows st d :
  (∃ f, users (run_stmt st d) = f <$> users d
        ∧ sequence (run_stmt st d) = sequence d
        ∧ ∀ u, db_id (f u) = db_id u ∧ telegram_id (f u) = telegram_id u
               ∧ (gift_delivered u = true → gift_delivered (f u) = true)
               ∧ (gift_received u = true → gift_received (f u) = true))
  ∨ (∃ i, st = DeleteUser i
          ∧ users (run_stmt st d) = filter (λ u, db_id u ≠ i) (users d)
          ∧ sequence (run_stmt st d) = sequence d)
  ∨ (∃ t name group prefs,
        st = InsertUser t name group prefs
        ∧ Sql.user_by_telegram_id t d = None
        ∧ users (run_stmt st d)
          = users d ++ [mkUser (Sql.next_rowid d) t name group prefs
                               None false false]
        ∧ sequence (run_stmt st d) = Sql.next_rowid d).
Proof.
  assert (∀ g i, ∃ f,
    Sql.update_where_id g i (users d) = f <$> users d
    ∧ ∀ u, f u = if decide (db_id u = i) then g u else u) as Hupd
    by (intros g i; by eexists).
  destruct st as [b| |r g|i|i|i|t name group prefs]; simpl.
  - left. exists id. by rewrite list_fmap_id.
  - left. exists id. by rewrite list_fmap_id.
  - left. destruct (Hupd (Sql.set_santa_id (Some r)) g) as (f & -> & Hf).
    exists f. split_and!; [done..|]. intros u. rewrite Hf.
    by case_decide.
  - left. destruct (Hupd Sql.set_gift_delivered i) as (f & -> & Hf).
    exists f. split_and!; [done..|]. intros u. rewrite Hf.
    by case_decide.
  - left. destruct (Hupd Sql.set_gift_received i) as (f & -> & Hf).
    exists f. split_and!; [done..|]. intros u. rewrite Hf.
    by case_decide.
  - right. left. by exists i.
  - unfold Sql.insert_user.
    destruct (Sql.user_by_telegram_id t d) as [row|] eqn:E.
    + left. exists id. by rewrite list_fmap_id.
    + right. right. by exists t, name, group, prefs.
Qed.

Lemma run_stmt_NoDup_ids st d :
  NoDup (Sql.ids d) → NoDup (Sql.ids (run_stmt st d)).
Proof.
  unfold Sql.ids. intros Hnd.
  destruct (run_stmt_rows st d)
    as [(f & -> & _ & Hf)|[(i & _ & -> & _)|H]].
  - rewrite <- list_fmap_compose.
    rewrite (list_fmap_ext _ db_id (users d)); [done|].
    intros _ u _. apply Hf.
  - eapply sublist_NoDup; [exact Hnd|]. apply fmap_sublist, sublist_filter.
  - destruct H as (t & n & g & p & _ & _ & -> & _).
    rewrite fmap_app. apply NoDup_app.
    split_and!; [done| |apply NoDup_singleton].
    intros x Hx ->%list_elem_of_singleton.
    apply next_rowid_above in Hx. simpl in Hx. lia.
Qed.

Lemma run_stmt_NoDup_telegram_ids st d :
  NoDup (telegram_ids d) → NoDup (telegram_ids (run_stmt st d)).
Proof.
  unfold telegram_ids. intros Hnd.
  destruct (run_stmt_rows st d)
    as [(f & -> & _ & Hf)|[(i & _ & -> & _)|H]].
  - rewrite <- list_fmap_compose.
    rewrite (list_fmap_ext _ telegram_id (users d)); [done|].
    intros _ u _. apply Hf.
  - eapply sublist_NoDup; [exact Hnd|]. apply fmap_sublist, sublist_filter.
  - destruct H as (t & n & g & p & _ & Ht & -> & _).
    rewrite fmap_app. apply NoDup_app.
    split_and!; [done| |apply NoDup_singleton].
    intros x Hx ->%list_elem_of_singleton.
    by apply user_by_telegram_id_None in Ht.
Qed.

Lemma run_stmt_event_started st d :
  event_has_started d = true → event_has_started (run_stmt st d) = true.
Proof.
  unfold event_has_started.
  destruct st as [b| |r g|i|i|i|t name group prefs]; simpl; try done.
  - by destruct (event_settings d).
  - by destruct (event_settings d).
  - unfold Sql.insert_user. by destruct (Sql.user_by_telegram_id t d).
Qed.

Lemma run_stmt_counted st d : counted d → counted (run_stmt st d).
Proof.
  unfold counted, Sql.ids. intros Hc.
  destruct (run_stmt_rows st d)
    as [(f & -> & -> & Hf)|[(i & _ & -> & ->)|H]].
  - intros i (u' & -> & (u & -> & Hu)%list_elem_of_fmap)%list_elem_of_fmap.
    destruct (Hf u) as [-> _]. apply Hc. by apply list_elem_of_fmap_2.
  - intros j (u & -> & [_ Hu]%list_elem_of_filter)%list_elem_of_fmap.
    apply Hc. by apply list_elem_of_fmap_2.
  - destruct H as (t & n & g & p & _ & _ & -> & ->).
    intros i. rewrite fmap_app, elem_of_app.
    intros [Hi| ->%list_elem_of_singleton]; [|simpl; lia].
    apply next_rowid_above in Hi. lia.
Qed.

Lemma run_stmt_sequence st d : sequence d ≤ sequence (run_stmt st d).
Proof.
  destruct (run_stmt_rows st d)
    as [(f & _ & -> & _)|[(i & _ & _ & ->)|H]]; [lia..|].
  destruct H as (t & n & g & p & _ & _ & _ & ->).
  pose proof (next_rowid_above d) as [? _]. lia.
Qed.

Lemma run_stmt_new_ids st d i :
  i ∈ Sql.ids (run_stmt st d) → i ∈ Sql.ids d ∨ sequence d < i.
Proof.
  unfold Sql.ids.
  destruct (run_stmt_rows st d)
    as [(f & -> & _ & Hf)|[(j & _ & -> & _)|H]].
  - intros (u' & -> & (u & -> & Hu)%list_elem_of_fmap)%list_elem_of_fmap.
    left. destruct (Hf u) as [-> _]. by apply list_elem_of_fmap_2.
  - intros (u & -> & [_ Hu]%list_elem_of_filter)%list_elem_of_fmap.
    left. by apply list_elem_of_fmap_2.
  - destruct H as (t & n & g & p & _ & _ & -> & _).
    rewrite fmap_app, elem_of_app.
    intros [Hi| ->%list_elem_of_singleton]; [by left|right; simpl].
    by destruct (next_rowid_above d).
Qed.

Lemma run_stmt_flags g st d :
  counted d → g ≤ sequence d →
  (delivered g d → delivered g (run_stmt st d))
  ∧ (received g d → received g (run_stmt st d)).
Proof.
  unfold delivered, received. intros Hc Hg.
  destruct (run_stmt_rows st d)
    as [(f & -> & _ & Hf)|[(i & _ & -> & _)|H]].
  - split; intros Hd u' (u & -> & Hu)%list_elem_of_fmap E;
      destruct (Hf u) as (Ef & _ & Hdel & Hrec); rewrite Ef in E;
      [apply Hdel|apply Hrec]; by apply Hd.
  - split; intros Hd u [_ Hu]%list_elem_of_filter E; by apply Hd.
  - destruct H as (t & n & p & q & _ & _ & -> & _).
    split; intros Hd u [Hu| ->%list_elem_of_singleton]%elem_of_app E;
      try (by apply Hd); simpl in E;
      pose proof (next_rowid_above d) as [? _]; lia.
Qed.

(** ** Invariants of the loop *)

Section Invariants.

Context {Rng : Type}.
Variable ORGANIZER_IDS : list Z.
Variable shuffle : Rng → list Z → list Z * Rng.
Variable py_int : str → option Z.
Implicit Types s : State Rng.

(** The file after a batch has been processed from [s], however that
    ended. *)
Local Abbreviation after updates s :=
  (santa_db (process_updates ORGANIZER_IDS shuffle py_int updates s).2).

(** X1. No batch of updates, whatever it holds and however its processing
    ends, makes two rows share an id. *)
Theorem primary_key_kept s updates :
  NoDup (Sql.ids (santa_db s)) → NoDup (Sql.ids (after updates s)).
Proof.
  apply (bot_invariant (λ d, NoDup (Sql.ids d))).
  - intros st d. apply run_stmt_NoDup_ids.
  - apply process_updates_run.
Qed.

(** X2. Nor two rows share an external id: a sender is registered at most
    once. *)
Theorem telegram_id_kept_unique s updates :
  NoDup (telegram_ids (santa_db s)) →
  NoDup (telegram_ids (after updates s)).
Proof.
  apply (bot_invariant (λ d, NoDup (telegram_ids d))).
  - intros st d. apply run_stmt_NoDup_telegram_ids.
  - apply process_updates_run.
Qed.

(** X3. Once the event has started, no update makes it not started. *)
Theorem event_stays_started s updates :
  event_has_started (santa_db s) = true →
  event_has_started (after updates s) = true.
Proof.
  apply (bot_invariant (λ d, event_has_started d = true)).
  - intros st d. apply run_stmt_event_started.
  - apply process_updates_run.
Qed.

(** X4. When the counter of the table is not behind its ids, it is not
    behind them after any batch either, and every id in the table then was
    there before or is above the counter of before: a number at or below
    the counter that is the id of no row, such as the id of a deleted
    participant, is never given to a later row. *)
Theorem id_never_reissued s updates :
  counted (santa_db s) →
  counted (after updates s)
  ∧ sequence (santa_db s) ≤ sequence (after updates s)
  ∧ (∀ i, i ∈ Sql.ids (after updates s) →
          i ∈ Sql.ids (santa_db s) ∨ sequence (santa_db s) < i)
  ∧ (∀ g, g ≤ sequence (santa_db s) → g ∉ Sql.ids (santa_db s) →
          g ∉ Sql.ids (after updates s)).
Proof.
  intros Hc.
  assert (counted (after updates s)
          ∧ sequence (santa_db s) ≤ sequence (after updates s)
          ∧ (∀ i, i ∈ Sql.ids (after updates s) →
                  i ∈ Sql.ids (santa_db s) ∨ sequence (santa_db s) < i))
    as (H1 & H2 & H3).
  { apply (bot_invariant
             (λ d, counted d ∧ sequence (santa_db s) ≤ sequence d
                   ∧ ∀ i, i ∈ Sql.ids d →
                          i ∈ Sql.ids (santa_db s) ∨ sequence (santa_db s) < i)
             s _).
    - intros st d (Ha & Hb & Hd). split_and!.
      + by apply run_stmt_counted.
      + pose proof (run_stmt_sequence st d). lia.
      + intros i [Hi|Hi]%run_stmt_new_ids; [by apply Hd|right; lia].
    - apply process_updates_run.
    - split_and!; [done|lia|by left]. }
  split_and!; [done..|].
  intros g Hg Hnot Hin. destruct (H3 g Hin); [done|lia].
Qed.

(** X5. A flag of a participant that is set stays set through any batch for
    as long as a row with that id exists: nothing clears [gift_delivered]
    or [gift_received], and no new row takes the id. *)
Theorem flags_stay_set s updates g :
  counted (santa_db s) →
  g ∈ Sql.ids (santa_db s) →
  (delivered g (santa_db s) → delivered g (after updates s))
  ∧ (received g (santa_db s) → received g (after updates s)).
Proof.
  intros Hc Hg. specialize (Hc g Hg) as Hseq.
  split; intros Hd.
  - apply (bot_invariant
             (λ d, counted d ∧ g ≤ sequence d ∧ delivered g d) s _).
    + intros st d (Ha & Hb & Hf). split_and!.
      * by apply run_stmt_counted.
      * pose proof (run_stmt_sequence st d). lia.
      * by apply run_stmt_flags.
    + apply process_updates_run.
    + done.
  - apply (bot_invariant
             (λ d, counted d ∧ g ≤ sequence d ∧ received g d) s _).
    + intros st d (Ha & Hb & Hf). split_and!.
      * by apply run_stmt_counted.
      * pose proof (run_stmt_sequence st d). lia.
      * by apply run_stmt_flags.
    + apply process_updates_run.
    + done.
Qed.

Lemma process_updates_cons update updates s :
  process_updates ORGANIZER_IDS shuffle py_int (update :: updates) s
  = match dispatch ORGANIZER_IDS shuffle py_int update
            (with_cursor (update_id update) s) with
    | (Ok _, s1) => process_updates ORGANIZER_IDS shuffle py_int updates s1
    | (Raise e, s1) => (Raise e, s1)
    end.
Proof.
  unfold process_updates. simpl. unfold bind, set_last_update_id.
  fold (with_cursor (update_id update) s).
  by destruct (dispatch _ _ _ _ _) as [[[]|e] s1].
Qed.

(** X6. How a batch ends.  When its processing ends normally the cursor is
    the id of its last update (and where it was for an empty batch).  When
    it ends with an exception, the batch splits into the updates before,
    which were processed to the end, the update whose routing raised, and
    the updates after, which were not touched: the state is the one the
    raising handler left, with the cursor at the id of that update. *)
Theorem batch_outcome s updates :
  let run := process_updates ORGANIZER_IDS shuffle py_int updates s in
  (run.1 = Ok tt →
   last_update_id run.2
   = default (last_update_id s) (update_id <$> last updates))
  ∧ (∀ e, run.1 = Raise e →
       ∃ before update after s1,
         updates = before ++ update :: after
         ∧ process_updates ORGANIZER_IDS shuffle py_int before s = (Ok tt, s1)
         ∧ dispatch ORGANIZER_IDS shuffle py_int update
             (with_cursor (update_id update) s1) = (Raise e, run.2)
         ∧ last_update_id run.2 = update_id update).
Proof.
  revert s. induction updates as [|u us IH]; intros s run.
  - split; [done|]. intros e [=].
  - unfold run. rewrite process_updates_cons.
    pose proof (keeps_dispatch ORGANIZER_IDS shuffle py_int u
                  (with_cursor (update_id u) s)) as Hk.
    destruct (dispatch ORGANIZER_IDS shuffle py_int u
                (with_cursor (update_id u) s)) as [[[]|e] s1] eqn:Hd;
      simpl in Hk.
    + destruct (IH s1) as [IHok IHraise]. split.
      * intros Hok. rewrite (IHok Hok). rewrite Hk.
        destruct us as [|u' us']; [done|]. rewrite last_cons_cons.
        rewrite (last_cons u' us'). by destruct (last us').
      * intros e He.
        destruct (IHraise e He) as (before & v & after & s2 & -> & Hb & Hv).
        exists (u :: before), v, after, s2. split_and!; [done| |apply Hv..].
        by rewrite process_updates_cons, Hd.
    + split; [intros [=]|]. intros e' [= <-].
      exists [], u, us, s. by split_and!.
Qed.

End Invariants.

(** ** The sessions *)

Lemma run_stmt_unregistered t st d :
  is_insert st = false →
  Sql.user_by_telegram_id t d = None →
  Sql.user_by_telegram_id t (run_stmt st d) = None.
Proof.
  rewrite !user_by_telegram_id_None. unfold telegram_ids. intros Hst Ht.
  destruct (run_stmt_rows st d)
    as [(f & -> & _ & Hf)|[(i & _ & -> & _)|H]].
  - intros (u' & -> & (u & -> & Hu)%list_elem_of_fmap)%list_elem_of_fmap.
    destruct (Hf u) as (_ & E & _). rewrite E in Ht. apply Ht.
    by apply list_elem_of_fmap_2.
  - intros (u & -> & [_ Hu]%list_elem_of_filter)%list_elem_of_fmap.
    apply Ht. by apply list_elem_of_fmap_2.
  - destruct H as (? & ? & ? & ? & -> & _). done.
Qed.

Lemma insert_user_unregistered t name group prefs d i d' t' :
  Sql.insert_user t name group prefs d = Some (i, d') →
  t' ≠ t →
  Sql.user_by_telegram_id t' d = None →
  Sql.user_by_telegram_id t' d' = None.
Proof.
  unfold Sql.insert_user. rewrite !user_by_telegram_id_None.
  destruct (Sql.user_by_telegram_id t d); [done|]. intros [= <- <-] Hne Ht'.
  unfold telegram_ids. simpl. rewrite fmap_app, not_elem_of_app.
  split; [done|]. simpl. by intros ->%list_elem_of_singleton.
Qed.

Lemma insert_user_accepted t name group prefs d :
  Sql.user_by_telegram_id t d = None →
  Sql.insert_user t name group prefs d
  = Some (Sql.next_rowid d,
          mkDatabase
            (users d ++ [mkUser (Sql.next_rowid d) t name group prefs
                                None false false])
            (event_settings d) (Sql.next_rowid d)
            (journal d ++ [InsertUser t name group prefs])).
Proof. unfold Sql.insert_user. by intros ->. Qed.

Section Sessions.

Context {Rng : Type}.
Variable ORGANIZER_IDS : list Z.
Variable shuffle : Rng → list Z → list Z * Rng.
Variable py_int : str → option Z.
Implicit Types s : State Rng.

Lemma handle_start_run chat_id user_id user_name s :
  handle_start chat_id user_id user_name s
  = (Ok tt,
     match Sql.user_by_telegram_id user_id (santa_db s) with
     | Some row =>
         answered chat_id
           (if event_has_started (santa_db s)
            then assignment_view (santa_db s) (db_id row)
            else AlreadyRegisteredText (fio row) (db_id row)) s
     | None =>
         if registration_opened (santa_db s)
         then mkState (last_update_id s)
                (<[user_id := mkSession StepFio None None]> (user_data s))
                (santa_db s) (outbox s ++ [(chat_id, WelcomeText user_name)])
                (rng s)
         else answered chat_id RegistrationClosedText s
     end).
Proof.
  unfold handle_start, is_event_started, is_registration_open,
    registration_opened, event_has_started, bind, query.
  destruct (Sql.user_by_telegram_id user_id (santa_db s)) as [row|].
  - destruct (from_option event_started false _); cbv beta iota; [|done].
    by rewrite show_assignment_run.
  - by destruct (from_option registration_open false _).
Qed.

Lemma admin_sessions_ok chat_id text user_id s :
  sessions_ok s →
  sessions_ok (handle_admin_commands ORGANIZER_IDS shuffle py_int
                 chat_id text user_id s).2.
Proof.
  intros Hok.
  pose proof (admin_run ORGANIZER_IDS shuffle py_int chat_id text user_id s)
    as Hrun.
  destruct (admin_step_user_data _ _ Hrun) as [Hd _].
  intros uid v. rewrite Hd. intros Hv. destruct (Hok uid v Hv) as [Hrow Hf].
  split; [|done].
  eapply (admin_invariant (λ d, Sql.user_by_telegram_id uid d = None));
    [|exact Hrun|done].
  intros st d. apply run_stmt_unregistered.
Qed.

Lemma start_sessions_ok chat_id user_id user_name s :
  sessions_ok s → sessions_ok (handle_start chat_id user_id user_name s).2.
Proof.
  intros Hok. rewrite handle_start_run. simpl.
  destruct (Sql.user_by_telegram_id user_id (santa_db s)) as [row|] eqn:E;
    [done|].
  destruct (registration_opened (santa_db s)); [|done].
  intros uid v. simpl. destruct (decide (uid = user_id)) as [->|Hne].
  - rewrite lookup_insert_eq. by intros [= <-].
  - rewrite lookup_insert_ne by done. apply Hok.
Qed.

Lemma message_sessions_ok chat_id user_id user_name text s :
  sessions_ok s →
  sessions_ok (handle_message chat_id user_id user_name text s).2.
Proof.
  intros Hok. unfold handle_message, bind, get_session.
  destruct (user_data s !! user_id) as [v|] eqn:Hv; [|done].
  destruct (Hok user_id v Hv) as [Hrow Hf].
  destruct (step v) eqn:Hstep; simpl.
  - intros uid w. simpl. destruct (decide (uid = user_id)) as [->|Hne].
    + rewrite lookup_insert_eq. intros [= <-]. split; [done|]. by eexists.
    + rewrite lookup_insert_ne by done. apply Hok.
  - intros uid w. simpl. destruct (decide (uid = user_id)) as [->|Hne].
    + rewrite lookup_insert_eq. intros [= <-]. split; [done|]. simpl.
      split; [done|by eexists].
    + rewrite lookup_insert_ne by done. apply Hok.
  - destruct Hf as [[name ->] [group ->]].
    unfold insert_user. rewrite insert_user_accepted by done. simpl.
    intros uid w. simpl. destruct (decide (uid = user_id)) as [->|Hne].
    + by rewrite lookup_delete_eq.
    + rewrite lookup_delete_ne by done. intros Hw.
      destruct (Hok uid w Hw) as [Hrow' Hf']. split; [|done].
      eapply insert_user_unregistered;
        [by apply insert_user_accepted|done|done].
Qed.

Lemma dispatch_sessions_ok update s :
  sessions_ok s →
  sessions_ok (dispatch ORGANIZER_IDS shuffle py_int update s).2.
Proof.
  intros Hok. unfold dispatch. destruct (message update) as [m|]; [|done].
  destruct (_ && _); [by apply admin_sessions_ok|].
  case_bool_decide; [by apply start_sessions_ok|].
  case_bool_decide; [done|by apply message_sessions_ok].
Qed.

(** X7. The sessions keep the shape the bot gives them through any batch:
    whoever has a session has no row, a session at the step "group" holds
    the name, and one at the step "preferences" holds the name and the
    group. *)
Theorem sessions_stay_ok s updates :
  sessions_ok s →
  sessions_ok (process_updates ORGANIZER_IDS shuffle py_int updates s).2.
Proof.
  revert s. induction updates as [|u us IH]; intros s Hok; [done|].
  rewrite process_updates_cons.
  pose proof (dispatch_sessions_ok u (with_cursor (update_id u) s) Hok) as H.
  destruct (dispatch _ _ _ _ _) as [[[]|e] s1]; [|done]. by apply IH.
Qed.

End Sessions.

(** ** The exceptions that escape *)

Section Raising.

Context {Rng : Type}.
Variable ORGANIZER_IDS : list Z.
Variable shuffle : Rng → list Z → list Z * Rng.
Variable py_int : str → option Z.
Implicit Types s : State Rng.

Lemma only_ret {A} e (a : A) : raises_only (Rng:=Rng) e (ret a).
Proof. by intros s e'. Qed.

Lemma only_raise {A} e : raises_only (Rng:=Rng) (A:=A) e (raise e).
Proof. intros s e'. by intros [= <-]. Qed.

Lemma only_query {A} e (q : Database → A) : raises_only (Rng:=Rng) e (query q).
Proof. by intros s e'. Qed.

Lemma only_execute e w : raises_only (Rng:=Rng) e (execute w).
Proof. by intros s e'. Qed.

Lemma only_send e chat_id text :
  raises_only (Rng:=Rng) e (send_message chat_id text).
Proof. by intros s e'. Qed.

Lemma only_random_shuffle e l : raises_only e (random_shuffle shuffle l).
Proof. intros s e'. unfold random_shuffle. by destruct (shuffle _ _). Qed.

Lemma only_show_assignment e chat_id user_db_id :
  raises_only (Rng:=Rng) e (show_assignment chat_id user_db_id).
Proof. intros s e'. by rewrite show_assignment_run. Qed.

Lemma only_bind_param z : raises_only (Rng:=Rng) OverflowError (bind_param z).
Proof.
  intros s e'. unfold bind_param. case_decide; [done|]. by intros [= <-].
Qed.

Lemma only_bind {A B} e (m : M Rng A) (k : A → M Rng B) :
  raises_only e m → (∀ a, raises_only e (k a)) → raises_only e (bind m k).
Proof.
  intros Hm Hk s e'. unfold bind. specialize (Hm s).
  destruct (m s) as [[a|e''] s']; simpl in *; [apply Hk|].
  intros [= <-]. by apply Hm.
Qed.

Lemma only_for_each {A} e (l : list A) (body : A → M Rng unit) :
  (∀ x, raises_only e (body x)) → raises_only e (for_each l body).
Proof.
  intros Hb. induction l as [|x l IH]; simpl.
  - apply only_ret.
  - apply only_bind; [apply Hb|done].
Qed.

#[local] Hint Resolve only_ret only_raise only_query only_execute only_send
  only_random_shuffle only_show_assignment only_bind_param : effects.

(** The admin handler raises nothing but the OverflowError of sqlite3. *)
Lemma admin_raises_only chat_id text user_id :
  raises_only OverflowError
    (handle_admin_commands ORGANIZER_IDS shuffle py_int chat_id text user_id).
Proof.
  unfold handle_admin_commands, close_registration, open_registration,
    start_santa, notify_all_users, delete_user, mark_gift_delivered,
    mark_gift_received, notify_gift_delivered, get_all_users,
    is_event_started, is_registration_open.
  repeat first
    [ progress auto with effects
    | apply only_bind; [|intros ?]
    | apply only_for_each; intros ?
    | match goal with
      | |- raises_only _ (if ?b then _ else _) => destruct b
      | |- raises_only _ (match ?x with _ => _ end) => destruct x
      end ].
Qed.

Lemma message_ends_normally chat_id user_id user_name text s :
  sessions_ok s →
  (handle_message chat_id user_id user_name text s).1 = Ok tt.
Proof.
  intros Hok. unfold handle_message, bind, get_session.
  destruct (user_data s !! user_id) as [v|] eqn:Hv; [|done].
  destruct (Hok user_id v Hv) as [Hrow Hf].
  destruct (step v); [done..|].
  destruct Hf as [[name ->] [group ->]].
  unfold insert_user. by rewrite insert_user_accepted.
Qed.

Lemma dispatch_raises update s e :
  sessions_ok s →
  (dispatch ORGANIZER_IDS shuffle py_int update s).1 = Raise e →
  e = OverflowError
  ∧ ∃ m, message update = Some m ∧ from_id m ∈ ORGANIZER_IDS.
Proof.
  intros Hok. unfold dispatch. destruct (message update) as [m|]; [|done].
  destruct (_ && _).
  - intros He. split; [by eapply admin_raises_only|].
    exists m. split; [done|]. revert He. unfold handle_admin_commands.
    case_bool_decide; [done|]. by simpl.
  - case_bool_decide; [by rewrite handle_start_run|].
    case_bool_decide; [done|]. by rewrite message_ends_normally.
Qed.

Lemma receive_sessions_ok update s :
  sessions_ok s →
  sessions_ok (receive ORGANIZER_IDS shuffle py_int update s).2.
Proof.
  intros Hok. unfold receive.
  destruct (incoming_message update) as [m|]; [|done].
  destruct (incoming_from m) as [[user_id user_name]|]; [|done].
  by apply dispatch_sessions_ok.
Qed.

Lemma receive_raises update s e :
  sessions_ok s →
  (receive ORGANIZER_IDS shuffle py_int update s).1 = Raise e →
  ∃ m, incoming_message update = Some m
       ∧ (e = KeyError ∧ incoming_from m = None
          ∨ e = OverflowError
            ∧ ∃ user_id user_name,
                incoming_from m = Some (user_id, user_name)
                ∧ user_id ∈ ORGANIZER_IDS).
Proof.
  intros Hok. unfold receive.
  destruct (incoming_message update) as [m|]; [|done].
  destruct (incoming_from m) as [[user_id user_name]|] eqn:Hfrom.
  - intros He.
    destruct (dispatch_raises _ _ _ Hok He) as (-> & m' & [= <-] & Horg).
    exists m. split; [done|]. right. split; [done|].
    by exists user_id, user_name.
  - intros [= <-]. exists m. split; [done|]. by left.
Qed.

Lemma process_incoming_cons update updates s :
  process_incoming ORGANIZER_IDS shuffle py_int (update :: updates) s
  = match receive ORGANIZER_IDS shuffle py_int update
            (with_cursor (incoming_update_id update) s) with
    | (Ok _, s1) => process_incoming ORGANIZER_IDS shuffle py_int updates s1
    | (Raise e, s1) => (Raise e, s1)
    end.
Proof.
  unfold process_incoming. simpl. unfold bind, set_last_update_id.
  fold (with_cursor (incoming_update_id update) s).
  by destruct (receive _ _ _ _ _) as [[[]|e] s1].
Qed.


End Raising.

(** ** What a participant can do *)

Section Participants.

Context {Rng : Type}.
Variable ORGANIZER_IDS : list Z.
Variable shuffle : Rng → list Z → list Z * Rng.
Variable py_int : str → option Z.
Implicit Types s : State Rng.

(** X9. An update from a sender who is not an organizer, whatever its text:
    the settings stay as they are, no row is changed or removed and at most
    one is added, carrying the sender's external id and unset flags; no
    session but the sender's own is touched; the generator is not used;
    and at most one message is sent, to the chat of the update. *)
Theorem participant_touches_only_own s update m :
  message update = Some m →
  from_id m ∉ ORGANIZER_IDS →
  let s' := (dispatch ORGANIZER_IDS shuffle py_int update s).2 in
  event_settings (santa_db s') = event_settings (santa_db s)
  ∧ (users (santa_db s') = users (santa_db s)
     ∨ ∃ i name group prefs,
         users (santa_db s')
         = users (santa_db s)
           ++ [mkUser i (from_id m) name group prefs None false false])
  ∧ (∀ user_id, user_id ≠ from_id m →
       user_data s' !! user_id = user_data s !! user_id)
  ∧ rng s' = rng s
  ∧ (outbox s' = outbox s
     ∨ ∃ reply, outbox s' = outbox s ++ [(chat_id_of m, reply)]).
Proof.
  intros Hm Horg s'. unfold s', dispatch. rewrite Hm. clear s'.
  assert (∀ reply,
    let s' := answered (chat_id_of m) reply s in
    event_settings (santa_db s') = event_settings (santa_db s)
    ∧ (users (santa_db s') = users (santa_db s)
       ∨ ∃ i name group prefs,
           users (santa_db s')
           = users (santa_db s)
             ++ [mkUser i (from_id m) name group prefs None false false])
    ∧ (∀ user_id, user_id ≠ from_id m →
         user_data s' !! user_id = user_data s !! user_id)
    ∧ rng s' = rng s
    ∧ (outbox s' = outbox s
       ∨ ∃ reply, outbox s' = outbox s ++ [(chat_id_of m, reply)]))
    as Hsend.
  { intros reply. simpl. split_and!; [done|by left|done|done|].
    right. by exists reply. }
  destruct (_ && _).
  - unfold handle_admin_commands. rewrite bool_decide_false by done.
    apply Hsend.
  - case_bool_decide.
    { rewrite handle_start_run. simpl.
      destruct (Sql.user_by_telegram_id _ _); [apply Hsend|].
      destruct (registration_opened _); [|apply Hsend]. simpl.
      split_and!; [done|by left| |done|right; by eexists].
      intros uid Hne. by rewrite lookup_insert_ne. }
    case_bool_decide; [apply Hsend|].
    unfold handle_message, bind, get_session.
    destruct (user_data s !! from_id m) as [v|]; [|apply Hsend].
    destruct (step v); simpl.
    + split_and!; [done|by left| |done|right; by eexists].
      intros uid Hne. by rewrite lookup_insert_ne.
    + split_and!; [done|by left| |done|right; by eexists].
      intros uid Hne. by rewrite lookup_insert_ne.
    + destruct (session_fio v) as [name|];
        [|simpl; split_and!; [done|by left|done|done|by left]].
      destruct (session_group v) as [group|];
        [|simpl; split_and!; [done|by left|done|done|by left]].
      unfold insert_user, Sql.insert_user.
      destruct (Sql.user_by_telegram_id _ _); simpl.
      * split_and!; [done|by left| |done|right; by eexists].
        intros uid Hne. by rewrite lookup_delete_ne.
      * split_and!; [done|right; by do 4 eexists| |done|right; by eexists].
        intros uid Hne. by rewrite lookup_delete_ne.
Qed.

Lemma dispatch_start i m s :
  said m = lit "/start" →
  dispatch ORGANIZER_IDS shuffle py_int (mkUpdate i (Some m)) s
  = handle_start (chat_id_of m) (from_id m)
      (default friend (first_name m)) s.
Proof.
  unfold dispatch, said. cbn [message]. intros ->. literal_tests.
  change (existsb _ admin_tokens) with false. reflexivity.
Qed.

Lemma dispatch_plain i m s :
  plain (said m) →
  dispatch ORGANIZER_IDS shuffle py_int (mkUpdate i (Some m)) s
  = handle_message (chat_id_of m) (from_id m)
      (default friend (first_name m)) (said m) s.
Proof.
  unfold dispatch, plain, said. cbn [message]. intros (-> & H1 & H2).
  by rewrite !bool_decide_false.
Qed.


End Participants.

(** ** What an organizer's commands do *)

(** Enters the branch of a command with a numeric argument. *)
Ltac enter_branch Horg Hpre Harg :=
  let rest := fresh "rest" in
  apply bool_decide_eq_true in Hpre as [rest ->];
  unfold handle_admin_commands;
  rewrite (bool_decide_true _ Horg); change (negb true) with false;
  cbv iota; prefixed_tests rest; cbv iota; rewrite Harg.

Lemma user_by_id_delete_other g n d :
  g ≠ n →
  Sql.user_by_id g (Sql.delete_where_id n d).2 = Sql.user_by_id g d.
Proof.
  intros Hne. unfold Sql.user_by_id. simpl.
  induction (users d) as [|u rows IH]; [done|].
  rewrite filter_cons. csimpl.
  destruct (decide (db_id u = g)) as [E|E].
  - rewrite decide_True by congruence. csimpl. by rewrite decide_True.
  - destruct (decide (db_id u ≠ n)); csimpl;
      [rewrite decide_False by done|];
      destruct (list_find _ (filter _ rows)) as [[? ?]|],
               (list_find _ rows) as [[? ?]|]; simplify_eq/=; done.
Qed.

Lemma ids_delete n d :
  n ∉ Sql.ids (Sql.delete_where_id n d).2.
Proof.
  unfold Sql.ids. simpl.
  intros (u & -> & [Hu _]%list_elem_of_filter)%list_elem_of_fmap. done.
Qed.

Section Organizers.

Context {Rng : Type}.
Variable ORGANIZER_IDS : list Z.
Variable shuffle : Rng → list Z → list Z * Rng.
Variable py_int : str → option Z.
Implicit Types s : State Rng.

(** X11. /del with the id of a row: the rows with that id are removed and no
    other row is changed, not even one whose [santa_id] is that id; the
    settings stay; the organizer is sent the id, name and group of the
    deleted row, followed by the advice to draw again exactly when the
    event has started. *)
Theorem del_known_id s chat_id text user_id n row :
  user_id ∈ ORGANIZER_IDS →
  startswith text (lit "/del ") = true →
  numeric_argument py_int text = Some n →
  sqlite_int n →
  Sql.user_by_id n (santa_db s) = Some row →
  let run := handle_admin_commands ORGANIZER_IDS shuffle py_int
               chat_id text user_id s in
  run.1 = Ok tt
  ∧ users (santa_db run.2) = filter (λ u, db_id u ≠ n) (users (santa_db s))
  ∧ (n ∉ Sql.ids (santa_db run.2))
  ∧ event_settings (santa_db run.2) = event_settings (santa_db s)
  ∧ outbox run.2
    = outbox s
      ++ (chat_id, UserDeletedText (db_id row) (fio row) (group_name row))
         :: (if event_has_started (santa_db s)
             then [(chat_id, RerunAdviceText)] else [])
  ∧ user_data run.2 = user_data s.
Proof.
  intros Horg Hpre Harg Hn Hrow run. unfold run. clear run.
  enter_branch Horg Hpre Harg.
  unfold delete_user, bind_param, is_event_started, bind, query.
  rewrite decide_True by done. simpl. rewrite Hrow. simpl.
  fold (event_has_started (santa_db s)).
  destruct (event_has_started (santa_db s)); simpl;
    (split_and!; [done|done|apply ids_delete|done| |done]);
    by rewrite <- ?app_assoc.
Qed.

(** X12. /del with a number that is the id of no row: the organizer is sent
    the not-found text and nothing else happens; no statement is
    executed. *)
Theorem del_unknown_id s chat_id text user_id n :
  user_id ∈ ORGANIZER_IDS →
  startswith text (lit "/del ") = true →
  numeric_argument py_int text = Some n →
  sqlite_int n →
  n ∉ Sql.ids (santa_db s) →
  handle_admin_commands ORGANIZER_IDS shuffle py_int chat_id text user_id s
  = (Ok tt, answered chat_id DeleteNotFoundText s).
Proof.
  intros Horg Hpre Harg Hn Hnew.
  enter_branch Horg Hpre Harg.
  unfold delete_user, bind_param, bind, query.
  rewrite decide_True by done. simpl.
  by rewrite user_by_id_None.
Qed.

(** X13. After the receiver of a participant has been deleted, the
    participant's assignment view still names the deleted id, with the
    preferences replaced by the not-specified text: the reference is left
    dangling, not cleared. *)
Theorem view_of_deleted_receiver s chat_id g n :
  g ≠ n → n ≠ 0 →
  recipient_of (santa_db s) g = Some n →
  show_assignment chat_id g (with_db (Sql.delete_where_id n (santa_db s)).2 s)
  = (Ok tt,
     answered chat_id (AssignmentText n not_specified)
       (with_db (Sql.delete_where_id n (santa_db s)).2 s)).
Proof.
  intros Hg Hn Hrec. rewrite show_assignment_run. do 2 f_equal.
  unfold assignment_view, recipient_of in *. cbn [santa_db with_db].
  rewrite user_by_id_delete_other, Hrec by done.
  destruct (Z.eqb_spec n 0); [done|].
  by rewrite user_by_id_None by apply ids_delete.
Qed.

(** X14. /received with the id of a row: the flag [gift_received] of the
    rows with that id is set and no other column or row changes; the
    organizer is sent the confirmation, and nobody else is sent anything. *)
Theorem received_known_id s chat_id text user_id n :
  user_id ∈ ORGANIZER_IDS →
  startswith text (lit "/received ") = true →
  numeric_argument py_int text = Some n →
  sqlite_int n →
  n ∈ Sql.ids (santa_db s) →
  let run := handle_admin_commands ORGANIZER_IDS shuffle py_int
               chat_id text user_id s in
  run.1 = Ok tt
  ∧ outbox run.2 = outbox s ++ [(chat_id, ReceivedMarkedText n)]
  ∧ users (santa_db run.2)
    = (λ u, if decide (db_id u = n) then Sql.set_gift_received u else u)
        <$> users (santa_db s)
  ∧ received n (santa_db run.2)
  ∧ event_settings (santa_db run.2) = event_settings (santa_db s)
  ∧ user_data run.2 = user_data s.
Proof.
  intros Horg Hpre Harg Hn Hknown run. unfold run. clear run.
  enter_branch Horg Hpre Harg.
  unfold mark_gift_received, bind_param, bind.
  rewrite decide_True by done. simpl.
  assert ((0 <? Sql.rowcount n (users (santa_db s)))%nat = true) as ->.
  { apply Nat.ltb_lt. unfold Sql.rowcount, Sql.ids in *.
    apply list_elem_of_fmap in Hknown as (u & -> & Hu).
    assert (u ∈ filter (λ v, db_id v = db_id u) (users (santa_db s))) as Hin
      by (by apply list_elem_of_filter).
    destruct (filter _ _); [by apply elem_of_nil in Hin|simpl; lia]. }
  simpl. split_and!; [done..| |done|done].
  intros u' (u & -> & Hu)%list_elem_of_fmap. by case_decide.
Qed.

Lemma for_each_show (l : list User) s :
  for_each l (λ user, show_assignment (telegram_id user) (db_id user)) s
  = (Ok tt,
     mkState (last_update_id s) (user_data s) (santa_db s)
       (outbox s
        ++ ((λ u, (telegram_id u, assignment_view (santa_db s) (db_id u)))
              <$> l))
       (rng s)).
Proof.
  revert s. induction l as [|u l IH]; intros s; simpl.
  - unfold ret. by rewrite app_nil_r, state_eta.
  - unfold bind. rewrite show_assignment_run, IH. simpl.
    by rewrite <- app_assoc.
Qed.

(** X15. A successful /start_event: the organizer is told the number of
    participants, and then every participant, in the order of the table,
    is sent one message to their external id, the assignment view read
    from the file after the draw.  When no id is 0, that view names the
    participant's receiver and shows the preferences of the receiver's
    row. *)
Theorem start_event_notifies_everyone s chat_id user_id :
  user_id ∈ ORGANIZER_IDS →
  NoDup (Sql.ids (santa_db s)) →
  (2 ≤ length (users (santa_db s)))%nat →
  shuffled shuffle s ≡ₚ Sql.ids (santa_db s) →
  0 ∉ Sql.ids (santa_db s) →
  let run := handle_admin_commands ORGANIZER_IDS shuffle py_int
               chat_id (lit "/start_event") user_id s in
  let d' := after_draw (shuffled shuffle s) (santa_db s) in
  run.1 = Ok tt
  ∧ santa_db run.2 = d'
  ∧ outbox run.2
    = outbox s
      ++ (chat_id, DrawDoneText (length (users (santa_db s))))
         :: ((λ u, (telegram_id u, assignment_view d' (db_id u)))
               <$> users d')
  ∧ (∀ u, u ∈ users d' →
       ∃ row, row ∈ users d'
              ∧ santa_id u = Some (db_id row)
              ∧ assignment_view d' (db_id u)
                = AssignmentText (db_id row) (preferences row)).
Proof.
  intros Horg Hnd Hn Hperm Hzero run d'.
  pose proof (perm_length _ _ Hperm) as Hlen.
  assert (run
          = (Ok tt,
             mkState (last_update_id s) (user_data s) d'
               (outbox s
                ++ (chat_id, DrawDoneText (length (users (santa_db s))))
                   :: ((λ u, (telegram_id u, assignment_view d' (db_id u)))
                         <$> users d'))
               (shuffle (rng s) (Sql.ids (santa_db s))).2)) as ->.
  { unfold run. as_organizer Horg. unfold bind at 1.
    rewrite start_santa_run by done. cbv zeta. fold (shuffled shuffle s).
    fold d'. rewrite Hlen.
    destruct (Nat.ltb_spec 1 (length (users (santa_db s)))); [|lia].
    unfold notify_all_users, get_all_users, bind, send_message, query.
    cbv beta iota. rewrite for_each_show. cbn [santa_db outbox
      last_update_id user_data rng]. by rewrite <- app_assoc. }
  split_and!; [done..|].
  - intros u Hu.
    destruct (row_after_draw _ _ Hnd Hperm u Hu) as (i & Hi & Eu & Su).
    assert (next_in (shuffled shuffle s) i ∈ Sql.ids d') as Hin.
    { unfold d'. rewrite after_draw_ids by done.
      apply at_position; [done|]. apply Nat.mod_upper_bound. lia. }
    destruct (user_by_id_elem _ _ Hin) as [row Hrow].
    destruct (user_by_id_Some _ _ _ Hrow) as [Hrow_in Hrow_id].
    exists row. split_and!; [done|by rewrite Su, Hrow_id|].
    unfold assignment_view. rewrite Eu.
    unfold d' at 1. rewrite recipient_after_draw by done.
    destruct (Z.eqb_spec (next_in (shuffled shuffle s) i) 0) as [E|_].
    { exfalso. apply Hzero. unfold d' in Hin.
      rewrite after_draw_ids in Hin by done. by rewrite <- E. }
    by rewrite Hrow, Hrow_id.
Qed.

End Organizers.

(** ** The transport's retries *)

Lemma request_loop_three {J} (net : nat → Attempt J) :
  make_request net
  = match success (net 0%nat), success (net 1%nat), success (net 2%nat) with
    | Some j, _, _ => mkCall (Some j) 1 0
    | None, Some j, _ => mkCall (Some j) 2 2
    | None, None, Some j => mkCall (Some j) 3 4
    | None, None, None => mkCall None 3 4
    end.
Proof.
  unfold make_request. simpl.
  by destruct (success (net 0%nat)), (success (net 1%nat)),
              (success (net 2%nat)).
Qed.

(** X16. [make_request] never makes more than three attempts; it returns
    what the first attempt that ends with status 200 and a readable body
    gives, and nothing when none of the three does; it sleeps two seconds
    after every attempt that failed except the third, so at most four
    seconds in all; and how a fourth or later attempt would have ended
    plays no part. *)
Theorem make_request_bounded {J} (net : nat → Attempt J) :
  (1 ≤ attempts (make_request net) ≤ 3)%nat
  ∧ slept (make_request net) = 2 * (Z.of_nat (attempts (make_request net)) - 1)
  ∧ (∀ j, returned (make_request net) = Some j ↔
          ∃ k, (k < 3)%nat ∧ success (net k) = Some j
               ∧ attempts (make_request net) = S k
               ∧ ∀ i, (i < k)%nat → success (net i) = None)
  ∧ (returned (make_request net) = None ↔
     ∀ k, (k < 3)%nat → success (net k) = None)
  ∧ (∀ net' : nat → Attempt J,
       (∀ k, (k < 3)%nat → net' k = net k) →
       make_request net' = make_request net).
Proof.
  assert (∀ (P : nat → Prop), P 0%nat → P 1%nat → P 2%nat →
            ∀ k, (k < 3)%nat → P k) as Hthree.
  { intros P H0 H1 H2 k Hk.
    destruct k as [|[|[|k]]]; [done..|lia]. }
  split; [|split; [|split; [|split]]].
  - rewrite request_loop_three.
    destruct (success (net 0%nat)), (success (net 1%nat)),
             (success (net 2%nat)); simpl; lia.
  - rewrite request_loop_three.
    destruct (success (net 0%nat)), (success (net 1%nat)),
             (success (net 2%nat)); simpl; lia.
  - intros j. rewrite request_loop_three. split.
    + destruct (success (net 0%nat)) as [j0|] eqn:E0;
        [intros [= <-]; exists 0%nat; split_and!; [lia|done..|intros; lia]|].
      destruct (success (net 1%nat)) as [j1|] eqn:E1;
        [intros [= <-]; exists 1%nat; split_and!; [lia|done..|]|].
      { intros i Hi. by replace i with 0%nat by lia. }
      destruct (success (net 2%nat)) as [j2|] eqn:E2; [|done].
      intros [= <-]. exists 2%nat. split_and!; [lia|done..|].
      intros i Hi. destruct i as [|[|i]]; [done..|lia].
    + intros (k & Hk & Hj & _ & Hbefore).
      destruct k as [|[|[|k]]]; [| | |lia].
      * by rewrite Hj.
      * by rewrite (Hbefore 0%nat), Hj by lia.
      * by rewrite (Hbefore 0%nat), (Hbefore 1%nat), Hj by lia.
  - rewrite request_loop_three. split.
    + destruct (success (net 0%nat)) eqn:E0; [done|].
      destruct (success (net 1%nat)) eqn:E1; [done|].
      destruct (success (net 2%nat)) eqn:E2; [done|].
      intros _. by apply Hthree.
    + intros H. by rewrite !H by lia.
  - intros net' Hsame. rewrite !request_loop_three.
    by rewrite !Hsame by lia.
Qed.

(** X17. [get_updates] hands over an update only if it is in the "result"
    of the reply [make_request] returned, and that reply says ok;
    [send_message] answers true exactly when [make_request] returned a
    reply that says ok.  When all three attempts fail the batch is empty
    and the answer is false: neither raises. *)
Theorem transport_results (net : nat → Attempt Reply) :
  (∀ update, update ∈ get_updates net →
     ∃ reply batch, returned (make_request net) = Some reply
                    ∧ reply_ok reply = true
                    ∧ reply_result reply = Some batch ∧ update ∈ batch)
  ∧ (send_message_result net = true ↔
     ∃ reply, returned (make_request net) = Some reply
              ∧ reply_ok reply = true)
  ∧ ((∀ k, (k < 3)%nat → success (net k) = None) →
     get_updates net = [] ∧ send_message_result net = false).
Proof.
  unfold get_updates, send_message_result. split_and!.
  - intros update.
    destruct (returned (make_request net)) as [reply|];
      [|by intros ?%elem_of_nil].
    destruct (reply_ok reply) eqn:Hok; [|by intros ?%elem_of_nil].
    destruct (reply_result reply) as [batch|] eqn:Hres;
      [|by intros ?%elem_of_nil].
    intros Hin. by exists reply, batch.
  - destruct (returned (make_request net)) as [reply|]; split.
    + intros Hok. by exists reply.
    + by intros (? & [= <-] & ?).
    + done.
    + by intros (? & [=] & ?).
  - intros Hfail. rewrite request_loop_three.
    by rewrite !Hfail by lia.
Qed.

(** ** Committing a registration *)

Section Commit.

Context {Rng : Type}.
Implicit Types s : State Rng.


End Commit.

(** ** The further properties on the sample data *)

Lemma primary_key_kept_witness :
  NoDup (Sql.ids (santa_db midway))
  ∧ NoDup (Sql.ids (santa_db (process_updates organizers reversing ascii_int
                                answers midway).2)).
Proof.
  assert (NoDup (Sql.ids (santa_db midway))) as H1
    by (apply (bool_decide_unpack _); vm_compute; exact I).
  split; [exact H1|].
  exact (primary_key_kept organizers reversing ascii_int midway answers H1).
Defined.

Lemma telegram_id_kept_unique_witness :
  NoDup (telegram_ids (santa_db midway))
  ∧ NoDup (telegram_ids
             (santa_db (process_updates organizers reversing ascii_int
                          answers midway).2)).
Proof.
  assert (NoDup (telegram_ids (santa_db midway))) as H1
    by (apply (bool_decide_unpack _); vm_compute; exact I).
  split; [exact H1|].
  exact (telegram_id_kept_unique organizers reversing ascii_int midway
           answers H1).
Defined.

Lemma event_stays_started_witness :
  event_has_started (santa_db waiting) = true
  ∧ event_has_started
      (santa_db (process_updates organizers reversing ascii_int
                   [says 44 7 "tea"; says 45 100 "/del 2"] waiting).2)
    = true.
Proof.
  assert (event_has_started (santa_db waiting) = true) as H1 by reflexivity.
  split; [exact H1|].
  exact (event_stays_started organizers reversing ascii_int waiting
           [says 44 7 "tea"; says 45 100 "/del 2"] H1).
Defined.

Lemma id_never_reissued_witness :
  counted two_left
  ∧ 3 ≤ sequence two_left
  ∧ (3 ∉ Sql.ids two_left)
  ∧ (3 ∉ Sql.ids (santa_db (process_updates organizers reversing ascii_int
                              dialogue (fresh two_left)).2))
  ∧ Sql.ids (santa_db (process_updates organizers reversing ascii_int
                         dialogue (fresh two_left)).2) = [1; 2; 4].
Proof.
  assert (counted (santa_db (fresh two_left))) as H1.
  { intros i.
    intros [->|[->|?%elem_of_nil]%elem_of_cons]%elem_of_cons;
      [simpl; lia..|done]. }
  assert (3 ≤ sequence two_left) as H2 by (simpl; lia).
  assert (3 ∉ Sql.ids two_left) as H3
    by (apply (bool_decide_unpack _); vm_compute; exact I).
  split_and!; [exact H1|exact H2|exact H3| |reflexivity].
  exact (proj2 (proj2 (proj2
    (id_never_reissued organizers reversing ascii_int (fresh two_left)
       dialogue H1))) 3 H2 H3).
Defined.

Lemma flags_stay_set_witness :
  counted (santa_db midway)
  ∧ 2 ∈ Sql.ids (santa_db midway)
  ∧ delivered 2 (santa_db midway)
  ∧ delivered 2 (santa_db (process_updates organizers reversing ascii_int
                             (answers ++ [says 44 100 "/start_event"])
                             midway).2).
Proof.
  assert (counted (santa_db midway)) as H1.
  { intros i.
    intros [->|[->|[->|?%elem_of_nil]%elem_of_cons]%elem_of_cons]%elem_of_cons;
      [simpl; lia..|done]. }
  assert (2 ∈ Sql.ids (santa_db midway)) as H2
    by (apply (bool_decide_unpack _); vm_compute; exact I).
  assert (delivered 2 (santa_db midway)) as H3.
  { intros u.
    intros [->|[->|[->|?%elem_of_nil]%elem_of_cons]%elem_of_cons]%elem_of_cons;
      [done..|done]. }
  split_and!; [exact H1|exact H2|exact H3|].
  exact (proj1 (flags_stay_set organizers reversing ascii_int midway
                  (answers ++ [says 44 100 "/start_event"]) 2 H1 H2) H3).
Defined.

Lemma sessions_ok_midway : sessions_ok midway.
Proof.
  intros uid v Hv. unfold midway in Hv. cbn [user_data] in Hv.
  apply lookup_singleton_Some in Hv as [<- <-]. split; [reflexivity|].
  simpl. by eexists.
Defined.

Lemma sessions_stay_ok_witness :
  sessions_ok midway
  ∧ sessions_ok (process_updates organizers reversing ascii_int
                   [says 42 7 "B-2"] midway).2.
Proof.
  split; [exact sessions_ok_midway|].
  exact (sessions_stay_ok organizers reversing ascii_int midway
           [says 42 7 "B-2"] sessions_ok_midway).
Defined.


Lemma participant_touches_only_own_witness :
  message (says 42 7 "B-2")
  = Some (mkMessage 7 7 (Some (lit "Dana")) (Some (lit "B-2")))
  ∧ (7 ∉ organizers)
  ∧ users (santa_db (dispatch organizers reversing ascii_int
                       (says 42 7 "B-2") midway).2) = users registered
  ∧ event_settings (santa_db (dispatch organizers reversing ascii_int
                                (says 42 7 "B-2") midway).2)
    = event_settings registered.
Proof.
  assert (message (says 42 7 "B-2")
          = Some (mkMessage 7 7 (Some (lit "Dana")) (Some (lit "B-2"))))
    as H1 by reflexivity.
  assert (7 ∉ organizers) as H2
    by (apply (bool_decide_unpack _); vm_compute; exact I).
  pose proof (participant_touches_only_own organizers reversing ascii_int
                midway (says 42 7 "B-2") _ H1 H2) as (Ha & _).
  split_and!; [exact H1|exact H2|reflexivity|exact Ha].
Defined.

Lemma plain_answer text :
  text ∈ ["Dana"; "B-2"; "tea"]%string →
  plain (strip (lit text)).
Proof.
  intros Ht.
  repeat (apply elem_of_cons in Ht as [->|Ht]);
    [split_and!; [reflexivity|intros E; vm_compute in E; discriminate E..]..|].
  by apply elem_of_nil in Ht.
Defined.


Lemma del_known_id_witness :
  100 ∈ organizers
  ∧ startswith (lit "/del 2") (lit "/del ") = true
  ∧ numeric_argument ascii_int (lit "/del 2") = Some 2
  ∧ sqlite_int 2
  ∧ Sql.user_by_id 2 assigned = Some (Sql.set_santa_id (Some 3) bob)
  ∧ Sql.ids (santa_db (handle_admin_commands organizers reversing ascii_int
                         100 (lit "/del 2") 100 (fresh assigned)).2) = [1; 3]
  ∧ outbox (handle_admin_commands organizers reversing ascii_int
              100 (lit "/del 2") 100 (fresh assigned)).2
    = [(100, UserDeletedText 2 (lit "Bob") (lit "A-1"));
       (100, RerunAdviceText)].
Proof.
  assert (100 ∈ organizers) as H1 by (vm_compute; left).
  assert (startswith (lit "/del 2") (lit "/del ") = true) as H2
    by reflexivity.
  assert (numeric_argument ascii_int (lit "/del 2") = Some 2) as H3
    by reflexivity.
  assert (sqlite_int 2) as H4 by (unfold sqlite_int; lia).
  assert (Sql.user_by_id 2 assigned = Some (Sql.set_santa_id (Some 3) bob))
    as H5 by reflexivity.
  pose proof (del_known_id organizers reversing ascii_int (fresh assigned)
                100 (lit "/del 2") 100 2 _ H1 H2 H3 H4 H5)
    as (_ & _ & _ & _ & Hout & _).
  split_and!; [exact H1|exact H2|exact H3|exact H4|exact H5|reflexivity
              |exact Hout].
Defined.

Lemma del_unknown_id_witness :
  100 ∈ organizers
  ∧ startswith (lit "/del 9") (lit "/del ") = true
  ∧ numeric_argument ascii_int (lit "/del 9") = Some 9
  ∧ sqlite_int 9
  ∧ (9 ∉ Sql.ids registered)
  ∧ handle_admin_commands organizers reversing ascii_int
      100 (lit "/del 9") 100 (fresh registered)
    = (Ok tt, answered 100 DeleteNotFoundText (fresh registered)).
Proof.
  assert (100 ∈ organizers) as H1 by (vm_compute; left).
  assert (startswith (lit "/del 9") (lit "/del ") = true) as H2
    by reflexivity.
  assert (numeric_argument ascii_int (lit "/del 9") = Some 9) as H3
    by reflexivity.
  assert (sqlite_int 9) as H4 by (unfold sqlite_int; lia).
  assert (9 ∉ Sql.ids registered) as H5
    by (apply (bool_decide_unpack _); vm_compute; exact I).
  split_and!; [exact H1|exact H2|exact H3|exact H4|exact H5|].
  exact (del_unknown_id organizers reversing ascii_int (fresh registered)
           100 (lit "/del 9") 100 9 H1 H2 H3 H4 H5).
Defined.

Lemma view_of_deleted_receiver_witness :
  1 ≠ 2 ∧ 2 ≠ 0
  ∧ recipient_of assigned 1 = Some 2
  ∧ show_assignment 101 1
      (with_db (Sql.delete_where_id 2 assigned).2 (fresh assigned))
    = (Ok tt,
       answered 101 (AssignmentText 2 not_specified)
         (with_db (Sql.delete_where_id 2 assigned).2 (fresh assigned))).
Proof.
  assert (1 ≠ 2) as H1 by lia.
  assert (2 ≠ 0) as H2 by lia.
  assert (recipient_of assigned 1 = Some 2) as H3 by reflexivity.
  split_and!; [exact H1|exact H2|exact H3|].
  exact (view_of_deleted_receiver (fresh assigned) 101 1 2 H1 H2 H3).
Defined.

Lemma received_known_id_witness :
  100 ∈ organizers
  ∧ startswith (lit "/received 2") (lit "/received ") = true
  ∧ numeric_argument ascii_int (lit "/received 2") = Some 2
  ∧ sqlite_int 2
  ∧ 2 ∈ Sql.ids registered
  ∧ outbox (handle_admin_commands organizers reversing ascii_int
              100 (lit "/received 2") 100 (fresh registered)).2
    = [(100, ReceivedMarkedText 2)].
Proof.
  assert (100 ∈ organizers) as H1 by (vm_compute; left).
  assert (startswith (lit "/received 2") (lit "/received ") = true) as H2
    by reflexivity.
  assert (numeric_argument ascii_int (lit "/received 2") = Some 2) as H3
    by reflexivity.
  assert (sqlite_int 2) as H4 by (unfold sqlite_int; lia).
  assert (2 ∈ Sql.ids registered) as H5
    by (apply (bool_decide_unpack _); vm_compute; exact I).
  pose proof (received_known_id organizers reversing ascii_int
                (fresh registered) 100 (lit "/received 2") 100 2
                H1 H2 H3 H4 H5) as (_ & Hout & _).
  split_and!; [exact H1|exact H2|exact H3|exact H4|exact H5|exact Hout].
Defined.

Lemma start_event_notifies_everyone_witness :
  100 ∈ organizers
  ∧ NoDup (Sql.ids registered)
  ∧ (2 ≤ length (users registered))%nat
  ∧ shuffled reversing (fresh registered) ≡ₚ Sql.ids registered
  ∧ (0 ∉ Sql.ids registered)
  ∧ outbox (handle_admin_commands organizers reversing ascii_int
              100 (lit "/start_event") 100 (fresh registered)).2
    = [(100, DrawDoneText 3);
       (101, AssignmentText 3 (lit "socks"));
       (102, AssignmentText 1 (lit "tea"));
       (103, AssignmentText 2 (lit "books"))].
Proof.
  assert (100 ∈ organizers) as H1 by (vm_compute; left).
  assert (NoDup (Sql.ids registered)) as H2
    by (apply (bool_decide_unpack _); vm_compute; exact I).
  assert (2 ≤ length (users registered))%nat as H3 by (simpl; lia).
  assert (shuffled reversing (fresh registered) ≡ₚ Sql.ids registered) as H4
    by (apply (bool_decide_unpack _); vm_compute; exact I).
  assert (0 ∉ Sql.ids registered) as H5
    by (apply (bool_decide_unpack _); vm_compute; exact I).
  pose proof (start_event_notifies_everyone organizers reversing ascii_int
                (fresh registered) 100 100 H1 H2 H3 H4 H5)
    as (_ & _ & Hout & _).
  split_and!; [exact H1|exact H2|exact H3|exact H4|exact H5|exact Hout].
Defined.


(** ** The numeric commands, case by case *)

Section Numeric.

Context {Rng : Type}.
Variable ORGANIZER_IDS : list Z.
Variable shuffle : Rng → list Z → list Z * Rng.
Variable py_int : str → option Z.
Implicit Types s : State Rng.

(** X19. /gift with the id of a row: [gift_delivered] of the rows with that
    id is set and nothing else in the tables changes; the organizer is
    sent the confirmation; and then, exactly when some row has the id as
    its [santa_id], one notice goes to the external id of the row that the
    command names. *)
Theorem gift_known_id s chat_id text user_id n row :
  user_id ∈ ORGANIZER_IDS →
  startswith text (lit "/gift ") = true →
  numeric_argument py_int text = Some n →
  sqlite_int n →
  Sql.user_by_id n (santa_db s) = Some row →
  let run := handle_admin_commands ORGANIZER_IDS shuffle py_int
               chat_id text user_id s in
  run.1 = Ok tt
  ∧ users (santa_db run.2)
    = (λ u, if decide (db_id u = n) then Sql.set_gift_delivered u else u)
        <$> users (santa_db s)
  ∧ event_settings (santa_db run.2) = event_settings (santa_db s)
  ∧ outbox run.2
    = outbox s
      ++ (chat_id, GiftMarkedText n)
         :: (if bool_decide (Some n ∈ santa_id <$> users (santa_db s))
             then [(telegram_id row, GiftDeliveredNotice)] else []).
Proof.
  intros Horg Hpre Harg Hn Hrow run.
  destruct (user_by_id_Some _ _ _ Hrow) as [Hin Hid].
  assert (n ∈ Sql.ids (santa_db s)) as Hknown.
  { unfold Sql.ids. rewrite <- Hid. by apply list_elem_of_fmap_2. }
  unfold run. clear run.
  rewrite (gift_for_known_id ORGANIZER_IDS shuffle py_int s chat_id text
             user_id n Horg Hpre Harg Hn Hknown).
  assert (Sql.user_by_id n (Sql.update_gift_delivered n (santa_db s)).2
          = Some (Sql.set_gift_delivered row)) as ->.
  { unfold Sql.update_gift_delivered, Sql.update_where_id. cbn [snd].
    destruct (santa_db s) as [rows es sq jl]. unfold Sql.logged.
    cbn [users event_settings sequence journal].
    rewrite (user_by_id_fmap _ n rows es sq _ sq jl es).
    - cbn [users] in Hrow. rewrite Hrow. simpl. by rewrite decide_True.
    - intros u. by case_decide. }
  assert (Sql.giver_of n (Sql.update_gift_delivered n (santa_db s)).2
          = None
          ↔ Some n ∉ santa_id <$> users (santa_db s)) as Hgiver.
  { unfold Sql.giver_of, Sql.update_gift_delivered, Sql.update_where_id.
    cbn [snd Sql.logged users]. rewrite fmap_None, list_find_None.
    rewrite Forall_forall. split.
    - intros H (u & E & Hu)%list_elem_of_fmap.
      apply (H (if decide (db_id u = n) then Sql.set_gift_delivered u
                else u)).
      + apply list_elem_of_fmap. by exists u.
      + by case_decide.
    - intros H u' (u & -> & Hu)%list_elem_of_fmap E. apply H.
      apply list_elem_of_fmap. exists u. split; [|done].
      by case_decide. }
  destruct (Sql.giver_of n (Sql.update_gift_delivered n (santa_db s)).2)
    as [giver|] eqn:Eg.
  - rewrite bool_decide_true.
    + simpl. split_and!; [done..|]. by rewrite <- app_assoc.
    + destruct (decide (Some n ∈ santa_id <$> users (santa_db s)));
        [done|]. by apply Hgiver in n0.
  - rewrite bool_decide_false by (by apply Hgiver). done.
Qed.

(** X20. Behind "/del ", "/gift " or "/received ", a text with no second
    word, or with one that [int] refuses, is answered with the usage text
    of its command and changes nothing. *)
Theorem usage_for_malformed_argument s chat_id text user_id :
  user_id ∈ ORGANIZER_IDS →
  split text !! 1%nat = None
  ∨ (∃ word, split text !! 1%nat = Some word ∧ py_int word = None) →
  ∀ command usage,
    (command, usage) ∈ [(lit "/del ", DelUsageText);
                        (lit "/gift ", GiftUsageText);
                        (lit "/received ", ReceivedUsageText)] →
    startswith text command = true →
    handle_admin_commands ORGANIZER_IDS shuffle py_int chat_id text user_id s
    = (Ok tt, answered chat_id usage s).
Proof.
  intros Horg Hbad command usage Hc Hpre.
  assert (numeric_argument py_int text = None) as Harg.
  { unfold numeric_argument.
    by destruct Hbad as [->|(word & -> & Hw)]. }
  destruct (malformed_argument_usage ORGANIZER_IDS shuffle py_int s chat_id
              text user_id Horg Harg) as (Hdel & Hgift & Hrec).
  repeat (apply elem_of_cons in Hc as [[= -> ->]|Hc]); [auto..|].
  by apply elem_of_nil in Hc.
Qed.

(** X21. Behind the same three prefixes, a number that does not fit 64 bits
    ends the handler with the OverflowError of sqlite3: nothing is sent,
    not even a usage text, and nothing changes. *)
Theorem number_out_of_range_raises s chat_id text user_id n :
  user_id ∈ ORGANIZER_IDS →
  numeric_argument py_int text = Some n →
  ¬ sqlite_int n →
  startswith text (lit "/del ") = true
  ∨ startswith text (lit "/gift ") = true
  ∨ startswith text (lit "/received ") = true →
  handle_admin_commands ORGANIZER_IDS shuffle py_int chat_id text user_id s
  = (Raise OverflowError, s).
Proof.
  intros Horg Harg Hn [Hpre|[Hpre|Hpre]]; enter_branch Horg Hpre Harg;
    unfold delete_user, mark_gift_delivered, mark_gift_received,
      bind_param, bind;
    by rewrite decide_False.
Qed.

End Numeric.

Lemma gift_known_id_witness :
  100 ∈ organizers
  ∧ startswith (lit "/gift 1") (lit "/gift ") = true
  ∧ numeric_argument ascii_int (lit "/gift 1") = Some 1
  ∧ sqlite_int 1
  ∧ Sql.user_by_id 1 assigned = Some (Sql.set_santa_id (Some 2) alice)
  ∧ outbox (handle_admin_commands organizers reversing ascii_int
              100 (lit "/gift 1") 100 (fresh assigned)).2
    = [(100, GiftMarkedText 1); (101, GiftDeliveredNotice)].
Proof.
  assert (100 ∈ organizers) as H1 by (vm_compute; left).
  assert (startswith (lit "/gift 1") (lit "/gift ") = true) as H2
    by reflexivity.
  assert (numeric_argument ascii_int (lit "/gift 1") = Some 1) as H3
    by reflexivity.
  assert (sqlite_int 1) as H4 by (unfold sqlite_int; lia).
  assert (Sql.user_by_id 1 assigned = Some (Sql.set_santa_id (Some 2) alice))
    as H5 by reflexivity.
  pose proof (gift_known_id organizers reversing ascii_int (fresh assigned)
                100 (lit "/gift 1") 100 1 _ H1 H2 H3 H4 H5)
    as (_ & _ & _ & Hout).
  split_and!; [exact H1|exact H2|exact H3|exact H4|exact H5|exact Hout].
Defined.

Lemma usage_for_malformed_argument_witness :
  100 ∈ organizers
  ∧ (split (lit "/gift x") !! 1%nat = None
     ∨ ∃ word, split (lit "/gift x") !! 1%nat = Some word
               ∧ ascii_int word = None)
  ∧ (lit "/gift ", GiftUsageText)
    ∈ [(lit "/del ", DelUsageText); (lit "/gift ", GiftUsageText);
       (lit "/received ", ReceivedUsageText)]
  ∧ startswith (lit "/gift x") (lit "/gift ") = true
  ∧ handle_admin_commands organizers reversing ascii_int
      100 (lit "/gift x") 100 (fresh registered)
    = (Ok tt, answered 100 GiftUsageText (fresh registered)).
Proof.
  assert (100 ∈ organizers) as H1 by (vm_compute; left).
  assert (split (lit "/gift x") !! 1%nat = None
          ∨ ∃ word, split (lit "/gift x") !! 1%nat = Some word
                    ∧ ascii_int word = None) as H2
    by (right; exists (lit "x"); split; reflexivity).
  assert ((lit "/gift ", GiftUsageText)
          ∈ [(lit "/del ", DelUsageText); (lit "/gift ", GiftUsageText);
             (lit "/received ", ReceivedUsageText)]) as H3
    by (right; left).
  assert (startswith (lit "/gift x") (lit "/gift ") = true) as H4
    by reflexivity.
  split_and!; [exact H1|exact H2|exact H3|exact H4|].
  exact (usage_for_malformed_argument organizers reversing ascii_int
           (fresh registered) 100 (lit "/gift x") 100 H1 H2 _ _ H3 H4).
Defined.

Lemma number_out_of_range_raises_witness :
  100 ∈ organizers
  ∧ numeric_argument ascii_int (lit "/del 99999999999999999999")
    = Some 99999999999999999999
  ∧ ¬ sqlite_int 99999999999999999999
  ∧ startswith (lit "/del 99999999999999999999") (lit "/del ") = true
  ∧ handle_admin_commands organizers reversing ascii_int
      100 (lit "/del 99999999999999999999") 100 (fresh registered)
    = (Raise OverflowError, fresh registered).
Proof.
  assert (100 ∈ organizers) as H1 by (vm_compute; left).
  assert (numeric_argument ascii_int (lit "/del 99999999999999999999")
          = Some 99999999999999999999) as H2 by reflexivity.
  assert (¬ sqlite_int 99999999999999999999) as H3
    by (unfold sqlite_int; lia).
  assert (startswith (lit "/del 99999999999999999999") (lit "/del ") = true)
    as H4 by reflexivity.
  split_and!; [exact H1|exact H2|exact H3|exact H4|].
  exact (number_out_of_range_raises organizers reversing ascii_int
           (fresh registered) 100 (lit "/del 99999999999999999999") 100
           _ H1 H2 H3 (or_introl H4)).
Defined.
